(** * Multi-agent research assistant: planner, researchers, synthesizer
      and the orchestrators that drive them.

    A shallow embedding of [agents.py], [config.py], the orchestrators
    of [main.py], [simple_research.py] and [google_search_research.py]
    with the naming of their saved reports, and the agent test of
    [example_usage.py].

    - Python [str] values are lists of Unicode code points ([N]).
    - The hosted model is a [Model]: a function from the history of the
      run and a request to the outcome of [generate_content] followed by
      the read of [response.text] (a text, or a raised [Exception] with
      its message).
    - Agent methods that talk to the model live in a state-and-exception
      monad [M] over the event log of the run; the two helper methods
      [_extract_questions] and [_compile_research_notes] are plain
      functions. *)

From Stdlib Require Import List NArith ZArith Bool Arith Lia String Ascii.
From Stdlib Require Import DecimalString.
Import ListNotations.

Set Implicit Arguments.

(* ================================================================== *)
(** * Python strings *)
(* ================================================================== *)

Module Py.

(** A character is a Unicode code point, a [str] is a sequence of them. *)
Definition char := N.
Definition str := list char.

(** ASCII literals of the source, written as Rocq strings. *)
Definition lit (s : string) : str :=
  List.map N_of_ascii (list_ascii_of_string s).

Definition in_range (c : char) (r : N * N) : bool :=
  (N.leb (fst r) c && N.leb c (snd r))%bool.

Definition in_ranges (rs : list (N * N)) (c : char) : bool :=
  existsb (in_range c) rs.

(** [str.isspace] on one character, which is also what [\s] matches in
    a [str] pattern (CPython 3.11, Unicode 14.0.0). *)
Definition whitespace_ranges : list (N * N) :=
  [ (9, 13); (28, 32); (133, 133); (160, 160); (5760, 5760);
    (8192, 8202); (8232, 8233); (8239, 8239); (8287, 8287);
    (12288, 12288) ]%N.

Definition isspace : char -> bool := in_ranges whitespace_ranges.

(** [str.isdecimal] on one character, which is what [\d] matches in a
    [str] pattern: general category Nd (CPython 3.11, Unicode 14.0.0).
    Every block has ten digits but the mathematical digits, which
    have fifty. *)
Definition decimal_block_starts : list N :=
  [ 48; 1632; 1776; 1984; 2406; 2534; 2662; 2790; 2918; 3046; 3174;
    3302; 3430; 3558; 3664; 3792; 3872; 4160; 4240; 6112; 6160; 6470;
    6608; 6784; 6800; 6992; 7088; 7232; 7248; 42528; 43216; 43264;
    43472; 43504; 43600; 44016; 65296; 66720; 68912; 69734; 69872;
    69942; 70096; 70384; 70736; 70864; 71248; 71360; 71472; 71904;
    72016; 72784; 73040; 73120; 92768; 92864; 93008; 123200; 123632;
    125264; 130032 ]%N.

Definition decimal_ranges : list (N * N) :=
  (120782, 120831)%N
    :: List.map (fun lo => (lo, lo + 9)%N) decimal_block_starts.

Definition isdecimal : char -> bool := in_ranges decimal_ranges.

(** Truthiness of a string: [if s:]. *)
Definition truthy (s : str) : bool :=
  match s with [] => false | _ :: _ => true end.

Fixpoint dropwhile (p : char -> bool) (s : str) : str :=
  match s with
  | [] => []
  | c :: s' => if p c then dropwhile p s' else s
  end.

Fixpoint takewhile (p : char -> bool) (s : str) : str :=
  match s with
  | [] => []
  | c :: s' => if p c then c :: takewhile p s' else []
  end.

(** [s.lstrip(...)], [s.rstrip(...)], [s.strip(...)] for a character
    predicate. *)
Definition lstrip_by (p : char -> bool) (s : str) : str := dropwhile p s.
Definition rstrip_by (p : char -> bool) (s : str) : str :=
  rev (dropwhile p (rev s)).
Definition strip_by (p : char -> bool) (s : str) : str :=
  rstrip_by p (lstrip_by p s).

(** [s.strip()] *)
Definition strip (s : str) : str := strip_by isspace s.

(** [s.strip(chars)] *)
Definition strip_chars (chars : str) (s : str) : str :=
  strip_by (fun c => existsb (N.eqb c) chars) s.

(** [s.split(sep)] for a one-character separator: never empty, and
    empty pieces are kept. *)
Fixpoint split (sep : char) (s : str) : list str :=
  match s with
  | [] => [[]]
  | c :: s' =>
      if N.eqb c sep then [] :: split sep s'
      else match split sep s' with
           | [] => [[c]]
           | piece :: pieces => (c :: piece) :: pieces
           end
  end.

(** [s.startswith(prefix)] *)
Fixpoint startswith (s prefix : str) : bool :=
  match prefix, s with
  | [], _ => true
  | _ :: _, [] => false
  | p :: prefix', c :: s' => (N.eqb c p && startswith s' prefix')%bool
  end.

(** [s.startswith((p1, p2, ...))] *)
Definition startswith_any (s : str) (prefixes : list str) : bool :=
  existsb (startswith s) prefixes.

(** [c in s] for a one-character [c] *)
Definition contains_char (c : char) (s : str) : bool :=
  existsb (N.eqb c) s.

(** [needle in haystack] *)
Fixpoint contains (needle haystack : str) : bool :=
  (startswith haystack needle
   || match haystack with
      | [] => false
      | _ :: haystack' => contains needle haystack'
      end)%bool.

(** [str(i)] for a non-negative [int]. *)
Definition str_of_int (i : N) : str :=
  lit (NilEmpty.string_of_uint (N.to_uint i)).

Definition quote : char := 34%N.       (* the double quote *)
Definition apostrophe : char := 39%N.
Definition newline : char := 10%N.
Definition comma : char := 44%N.

End Py.

Import Py.

(* ================================================================== *)
(** * The regular expressions of [agents.py] *)
(* ================================================================== *)

Module Re.

(** [s] cut at the first occurrence of [c]: what is before, what is
    after. *)
Fixpoint cut (c : char) (s : str) : option (str * str) :=
  match s with
  | [] => None
  | d :: s' =>
      if N.eqb d c then Some ([], s')
      else match cut c s' with
           | None => None
           | Some (before, after) => Some (d :: before, after)
           end
  end.

(** [re.search(r'\[(.*?)\]', s, re.DOTALL)], giving [group(1)].  The
    search is leftmost and [.*?] is lazy and crosses newlines, so the
    match opens at the first '[' that has a ']' after it, which is the
    first '[' of [s] whenever there is a match at all, and closes at
    the first ']' after it. *)
Definition search_bracket_list (s : str) : option str :=
  match cut 91%N s with
  | None => None
  | Some (_, after_open) =>
      match cut 93%N after_open with
      | None => None
      | Some (content, _) => Some content
      end
  end.

(** [re.sub(r'^\d+\.\s*', '', s)]: without [re.MULTILINE] the pattern
    matches at position 0 only; [\d+] is greedy and must be followed
    by a dot, so it is the whole leading run of digits; [\s*] then
    takes all the whitespace that follows. *)
Definition sub_leading_ordinal (s : str) : str :=
  match takewhile isdecimal s, dropwhile isdecimal s with
  | _ :: _, 46%N :: rest => dropwhile isspace rest
  | _, _ => s
  end.

(** [re.sub(r'^[-*]\s*', '', s)] *)
Definition sub_leading_bullet (s : str) : str :=
  match s with
  | c :: rest =>
      if (N.eqb c 45 || N.eqb c 42)%bool then dropwhile isspace rest
      else s
  | [] => []
  end.

End Re.

(* ================================================================== *)
(** * Question extraction ([PlannerAgent._extract_questions]) *)
(* ================================================================== *)

Module Extract.

(** [q.strip().strip(QUOTES)], where QUOTES holds the double quote and
    the apostrophe. *)
Definition clean_item (q : str) : str :=
  strip_chars [quote; apostrophe] (strip q).

(** [q and len(q) > 10] *)
Definition long_enough (q : str) : bool :=
  (truthy q && Nat.ltb 10 (List.length q))%bool.

(** The list branch: split on commas, clean, drop short items. *)
Definition bracket_path (list_content : str) : list str :=
  filter long_enough (List.map clean_item (split comma list_content)).

(** The test on a stripped line of the fallback. *)
Definition looks_like_question (line : str) : bool :=
  (startswith_any line [lit "1."; lit "2."; lit "3."; lit "4."; lit "5."]
   || startswith_any line [lit "-"; lit "*"]
   || (contains_char 63%N line && Nat.ltb 20 (List.length line)))%bool.

(** The clean-up of an accepted line. *)
Definition clean_line (line : str) : str :=
  strip_chars [quote; apostrophe]
    (Re.sub_leading_bullet (Re.sub_leading_ordinal line)).

(** The [for line in lines] loop, with [questions] as accumulator. *)
Fixpoint scan_lines (lines : list str) (questions : list str) : list str :=
  match lines with
  | [] => questions
  | line :: lines' =>
      let line := strip line in
      if looks_like_question line then
        let clean := clean_line line in
        if truthy clean then scan_lines lines' (questions ++ [clean])
        else scan_lines lines' questions
      else scan_lines lines' questions
  end.

(** The fallback branch: [questions[:5]] of the scanned lines. *)
Definition line_path (response_text : str) : list str :=
  firstn 5 (scan_lines (split newline response_text) []).

End Extract.

(* ================================================================== *)
(** * The run: events, the model, the monad *)
(* ================================================================== *)

(** The prompts sent to the model.  Each constructor stands for one
    f-string template of the source, with the values that fill it. *)
Inductive Prompt : Type :=
| PlannerPrompt (topic : str)                    (* PlannerAgent *)
| SearchPrompt (question : str)                  (* SearchAgent, with the tool *)
| SearchFallbackPrompt (question : str)          (* SearchAgent, [fallback_prompt] *)
| SimplePrompt (question : str)                  (* SimpleSearchAgent *)
| GoogleSearchPrompt (question : str)            (* GoogleSearchAgent, with the tool *)
| GoogleFallbackPrompt (question : str)          (* GoogleSearchAgent, [fallback_prompt] *)
| SynthesisPrompt (topic research_notes : str)   (* SynthesizerAgent *)
| TestPrompt.                                    (* config.validate_api_key *)

(** [tools=[search_tool]] or no tools. *)
Inductive Tools : Type := NoTools | GoogleSearchRetrieval.

(** What [model.generate_content(...)] followed by the read of
    [response.text] comes to: a text, possibly empty, or a raised
    exception whose [str(e)] is [message]. *)
Inductive Outcome : Type :=
| Returns (text : str)
| Fails (message : str).

(** What a run leaves behind, oldest first.  The [Enter_*] events mark
    the entry into an agent method (where the source prints its banner)
    and carry the arguments of the call. *)
Inductive Event : Type :=
| Enter_create_research_plan (topic : str)
| Enter_research_question (question : str)
| Enter_create_final_report (topic : str) (research_results : list (str * str))
| Generate (prompt : Prompt) (tools : Tools) (outcome : Outcome)
| Sleep (seconds : N).

Definition Log := list Event.

(** The model handle: its answer may depend on all that happened
    before. *)
Record Model : Type := { respond : Log -> Prompt -> Tools -> Outcome }.

(** Instances of [Exception], with [str(e)]. *)
Inductive Exn : Type := Exception (message : str).

Definition str_of_exn (e : Exn) : str :=
  match e with Exception message => message end.

Inductive Result (A : Type) : Type :=
| Value (a : A)
| Raised (e : Exn).
Arguments Raised {A} e.

(** Computations over the log that return or raise. *)
Definition M (A : Type) : Type := Log -> Log * Result A.

Definition run {A} (c : M A) (log : Log) : Log * Result A := c log.

Definition ret {A} (a : A) : M A := fun log => (log, Value a).

Definition raise {A} (e : Exn) : M A := fun log => (log, Raised e).

Definition bind {A B} (c : M A) (k : A -> M B) : M B :=
  fun log =>
    match c log with
    | (log', Value a) => k a log'
    | (log', Raised e) => (log', Raised e)
    end.

(** [try: body  except Exception as e: handler] *)
Definition try_except {A} (body : M A) (handler : Exn -> M A) : M A :=
  fun log =>
    match body log with
    | (log', Value a) => (log', Value a)
    | (log', Raised e) => handler e log'
    end.

Definition emit (ev : Event) : M unit :=
  fun log => (log ++ [ev], Value tt).

Declare Scope py_scope.
Delimit Scope py_scope with py.
Notation "x <- c ;; k" := (bind c (fun x => k))
  (at level 61, c at next level, right associativity) : py_scope.
Notation "c ;; k" := (bind c (fun _ => k))
  (at level 61, right associativity) : py_scope.
Open Scope py_scope.

(** [model.generate_content(prompt, tools=...)] and [response.text]. *)
Definition generate_content (model : Model) (prompt : Prompt) (tools : Tools)
  : M str :=
  fun log =>
    let outcome := respond model log prompt tools in
    (log ++ [Generate prompt tools outcome],
     match outcome with
     | Returns text => Value text
     | Fails message => Raised (Exception message)
     end).

(** [time.sleep(seconds)] *)
Definition sleep (seconds : N) : M unit := emit (Sleep seconds).

(** [obj.attr] when [obj] may be [None]. *)
Definition attribute {A} (obj : option A) (name : string) : M A :=
  match obj with
  | Some a => ret a
  | None =>
      raise (Exception
               (lit "'NoneType' object has no attribute '" ++ lit name ++ lit "'"))
  end.

(* ================================================================== *)
(** * agents.py *)
(* ================================================================== *)

Module PlannerAgent.

Record t : Type := { model : Model }.

(** [_extract_questions(self, response_text)] *)
Definition _extract_questions (self : t) (response_text : str) : list str :=
  match Re.search_bracket_list response_text with
  | Some list_content => Extract.bracket_path list_content
  | None => Extract.line_path response_text
  end.

(** [create_research_plan(self, topic)] *)
Definition create_research_plan (self : t) (topic : str) : M (list str) :=
  emit (Enter_create_research_plan topic) ;;
  try_except
    (text <- generate_content (model self) (PlannerPrompt topic) NoTools ;;
     let plan_str := strip text in
     let questions := _extract_questions self plan_str in
     match questions with
     | _ :: _ => ret questions
     | [] => ret []
     end)
    (fun e => ret []).

End PlannerAgent.

Module SearchAgent.

Record t : Type := { model : Model }.

Definition unsupported : str := lit "Search Grounding is not supported".

(** [research_question(self, question)] *)
Definition research_question (self : t) (question : str) : M str :=
  emit (Enter_research_question question) ;;
  try_except
    (text <- generate_content (model self) (SearchPrompt question)
               GoogleSearchRetrieval ;;
     if truthy text then ret text else ret [])
    (fun e =>
       if contains unsupported (str_of_exn e) then
         (* the inner [try] returns from the method ([Some]) or falls
            through to the last line ([None]) *)
         returned <-
           try_except
             (text <- generate_content (model self)
                        (SearchFallbackPrompt question) NoTools ;;
              if truthy text then ret (Some text) else ret None)
             (fun fallback_error => ret None) ;;
         match returned with
         | Some text => ret text
         | None => ret []
         end
       else ret []).

End SearchAgent.

Module SynthesizerAgent.

Record t : Type := { model : Model }.

Definition no_data : str :=
  lit "Error: No research data available to synthesize.".
Definition no_report : str :=
  lit "Error: Could not generate the final report.".

(** One turn of the loop of [_compile_research_notes]. *)
Definition section (i : N) (question data : str) : str :=
  [newline] ++ lit "### Research Question " ++ str_of_int i ++ lit ": "
    ++ question ++ [newline; newline]
    ++ lit "**Research Findings:**" ++ [newline]
    ++ data ++ [newline; newline] ++ lit "---" ++ [newline].

(** [for i, (question, data) in enumerate(research_results, 1)], from index [i] on *)
Fixpoint compile_from (i : N) (research_results : list (str * str))
         (research_notes : str) : str :=
  match research_results with
  | [] => research_notes
  | (question, data) :: rest =>
      compile_from (N.succ i) rest (research_notes ++ section i question data)
  end.

(** [_compile_research_notes(self, research_results)] *)
Definition _compile_research_notes (self : t)
           (research_results : list (str * str)) : str :=
  compile_from 1 research_results [].

(** [create_final_report(self, topic, research_results)] *)
Definition create_final_report (self : t) (topic : str)
           (research_results : list (str * str)) : M str :=
  emit (Enter_create_final_report topic research_results) ;;
  match research_results with
  | [] => ret no_data
  | _ :: _ =>
      let research_notes := _compile_research_notes self research_results in
      try_except
        (text <- generate_content (model self)
                   (SynthesisPrompt topic research_notes) NoTools ;;
         if truthy text then ret text else ret no_report)
        (fun e => ret no_report)
  end.

End SynthesizerAgent.

(* ================================================================== *)
(** * simple_research.py and google_search_research.py: the other
      researchers *)
(* ================================================================== *)

Module SimpleSearchAgent.

Record t : Type := { model : Model }.

(** [research_question(self, question)] *)
Definition research_question (self : t) (question : str) : M str :=
  emit (Enter_research_question question) ;;
  try_except
    (text <- generate_content (model self) (SimplePrompt question) NoTools ;;
     if truthy text then ret text else ret [])
    (fun e => ret []).

End SimpleSearchAgent.

Module GoogleSearchAgent.

Record t : Type := { model : Model }.

(** [research_question(self, question)] *)
Definition research_question (self : t) (question : str) : M str :=
  emit (Enter_research_question question) ;;
  try_except
    ((* Method 1: the inner [try] returns from the method ([Some]) or
        goes on to Method 2 ([None]) *)
     returned <-
       try_except
         (text <- generate_content (model self) (GoogleSearchPrompt question)
                    GoogleSearchRetrieval ;;
          if truthy text then ret (Some text) else ret None)
         (fun search_error => ret None) ;;
     match returned with
     | Some text => ret text
     | None =>
         (* Method 2 *)
         text <- generate_content (model self) (GoogleFallbackPrompt question)
                   NoTools ;;
         if truthy text then ret text else ret []
     end)
    (fun e => ret []).

End GoogleSearchAgent.

(* ================================================================== *)
(** * config.py *)
(* ================================================================== *)

Module Config.

(** What the process finds around it: the variable [GOOGLE_API_KEY]
    and the model that [genai.GenerativeModel] hands out. *)
Record Env : Type := { GOOGLE_API_KEY : option str; gemini : Model }.

Definition key_missing : str :=
  lit "GOOGLE_API_KEY not found. Please check your .env file and ensure "
    ++ lit "you have set your Gemini API key. Get your API key from: "
    ++ lit "https://makersuite.google.com/app/apikey".

(** [configure_gemini()] *)
Definition configure_gemini (env : Env) : M Model :=
  match GOOGLE_API_KEY env with
  | Some (_ :: _) => ret (gemini env)
  | _ => raise (Exception key_missing)
  end.

(** [validate_api_key()]: a test call; the text of a response that
    arrived is never [None]. *)
Definition validate_api_key (env : Env) : M bool :=
  try_except
    (model <- configure_gemini env ;;
     text <- generate_content model TestPrompt NoTools ;;
     ret true)
    (fun e => ret false).

End Config.

(* ================================================================== *)
(** * main.py, simple_research.py, google_search_research.py: the
      orchestrators *)
(* ================================================================== *)

(** [self.searcher] holds an agent of one of three classes; the call
    [self.searcher.research_question(question)] dispatches on it. *)
Inductive Searcher : Type :=
| Search (agent : SearchAgent.t)
| SimpleSearch (agent : SimpleSearchAgent.t)
| GoogleSearch (agent : GoogleSearchAgent.t).

Definition research_question (searcher : Searcher) (question : str) : M str :=
  match searcher with
  | Search agent => SearchAgent.research_question agent question
  | SimpleSearch agent => SimpleSearchAgent.research_question agent question
  | GoogleSearch agent => GoogleSearchAgent.research_question agent question
  end.

Module Assistant.

(** The four attributes every orchestrator class has. *)
Record t : Type :=
  { model : option Model;
    planner : option PlannerAgent.t;
    searcher : option Searcher;
    synthesizer : option SynthesizerAgent.t }.

(** [__init__(self)] *)
Definition __init__ : t :=
  {| model := None; planner := None; searcher := None; synthesizer := None |}.

(** [initialize(self)], giving the orchestrator as the method leaves
    it and the boolean it returns.  [make_searcher] is the class of
    the researcher, the one thing the three [initialize] methods
    differ in.  Only [configure_gemini] can raise here, and it does so
    before any attribute is set. *)
Definition initialize (make_searcher : Model -> Searcher) (env : Config.Env)
           (self : t) : M (t * bool) :=
  try_except
    (configured <- Config.configure_gemini env ;;
     let self :=
       {| model := Some configured; planner := planner self;
          searcher := searcher self; synthesizer := synthesizer self |} in
     valid <- Config.validate_api_key env ;;
     if negb valid then ret (self, false)
     else
       ret ({| model := Some configured;
               planner := Some {| PlannerAgent.model := configured |};
               searcher := Some (make_searcher configured);
               synthesizer := Some {| SynthesizerAgent.model := configured |} |},
            true))
    (fun e => ret (self, false)).

Definition cross_mark : char := 10060%N.   (* U+274C *)

Definition not_initialized : str :=
  lit "Error: System not initialized. Please run initialize() first.".
Definition no_plan : str :=
  cross_mark
    :: lit " Could not create a research plan. Please try a different topic.".
Definition no_information : str :=
  cross_mark
    :: lit " Could not find any information during research. Please try a different topic.".

(** The three [conduct_research] methods differ in the seconds they
    sleep after a question only; [delay] is that number. *)
Section ConductResearch.

Variable delay : N.

(** Step 2, [for i, question in enumerate(research_plan, 1)], with
    [research_results] as accumulator. *)
Fixpoint research_loop (self : t) (research_plan : list str)
         (research_results : list (str * str)) : M (list (str * str)) :=
  match research_plan with
  | [] => ret research_results
  | question :: rest =>
      agent <- attribute (searcher self) "research_question" ;;
      research_data <- research_question agent question ;;
      let research_results :=
        if truthy research_data
        then research_results ++ [(question, research_data)]
        else research_results in
      sleep delay ;;
      research_loop self rest research_results
  end.

(** [conduct_research(self, topic)] *)
Definition conduct_research (self : t) (topic : str) : M str :=
  match model self with
  | None => ret not_initialized
  | Some _ =>
      agent <- attribute (planner self) "create_research_plan" ;;
      research_plan <- PlannerAgent.create_research_plan agent topic ;;
      match research_plan with
      | [] => ret no_plan
      | _ :: _ =>
          research_results <- research_loop self research_plan [] ;;
          match research_results with
          | [] => ret no_information
          | _ :: _ =>
              agent <- attribute (synthesizer self) "create_final_report" ;;
              SynthesizerAgent.create_final_report agent topic
                research_results
          end
      end
  end.

End ConductResearch.

End Assistant.

Module MultiAgentResearchAssistant.
(** main.py: a [SearchAgent], [time.sleep(1)] *)
Definition initialize :=
  Assistant.initialize (fun m => Search {| SearchAgent.model := m |}).
Definition conduct_research := Assistant.conduct_research 1.
End MultiAgentResearchAssistant.

Module SimpleMultiAgentResearchAssistant.
(** simple_research.py: a [SimpleSearchAgent], [time.sleep(2)] *)
Definition initialize :=
  Assistant.initialize (fun m => SimpleSearch {| SimpleSearchAgent.model := m |}).
Definition conduct_research := Assistant.conduct_research 2.
End SimpleMultiAgentResearchAssistant.

Module GoogleSearchResearchAssistant.
(** google_search_research.py: a [GoogleSearchAgent], [time.sleep(2)] *)
Definition initialize :=
  Assistant.initialize (fun m => GoogleSearch {| GoogleSearchAgent.model := m |}).
Definition conduct_research := Assistant.conduct_research 2.
End GoogleSearchResearchAssistant.

(* ================================================================== *)
(** * Reading the log *)
(* ================================================================== *)

(** The calls of [create_final_report]: topic and research results. *)
Definition synthesizer_call (ev : Event) : list (str * list (str * str)) :=
  match ev with
  | Enter_create_final_report topic research_results =>
      [(topic, research_results)]
  | _ => []
  end.

Definition synthesizer_calls (log : Log) : list (str * list (str * str)) :=
  flat_map synthesizer_call log.

(** The calls of [generate_content]: prompt and tools. *)
Definition generate_call (ev : Event) : list (Prompt * Tools) :=
  match ev with
  | Generate prompt tools _ => [(prompt, tools)]
  | _ => []
  end.

Definition generate_calls (log : Log) : list (Prompt * Tools) :=
  flat_map generate_call log.

(** The outcome of the last call of [generate_content], if there was
    one. *)
Fixpoint last_outcome (log : Log) : option Outcome :=
  match log with
  | [] => None
  | ev :: rest =>
      match last_outcome rest, ev with
      | Some outcome, _ => Some outcome
      | None, Generate _ _ outcome => Some outcome
      | None, _ => None
      end
  end.

(** The calls of [generate_content] that carry no tool. *)
Definition ungrounded (call : Prompt * Tools) : bool :=
  match snd call with NoTools => true | GoogleSearchRetrieval => false end.

(** The findings of a plan, question after question as the loop of
    [conduct_research] obtains them from [log] on, and the log after
    the last sleep; [None] if a researcher raises. *)
Fixpoint researched (delay : N) (agent : Searcher) (research_plan : list str)
         (log : Log) : option (list str * Log) :=
  match research_plan with
  | [] => Some ([], log)
  | question :: rest =>
      match run (research_question agent question) log with
      | (log1, Value research_data) =>
          match researched delay agent rest (log1 ++ [Sleep delay]) with
          | Some (findings, log2) => Some (research_data :: findings, log2)
          | None => None
          end
      | (_, Raised _) => None
      end
  end.

(** The (question, finding) pairs with a non-empty finding. *)
Definition with_findings (research_plan findings : list str)
  : list (str * str) :=
  filter (fun pair => truthy (snd pair)) (combine research_plan findings).

(* ================================================================== *)
(** * Inputs used below *)
(* ================================================================== *)

(** A model that answers every request with the empty text. *)
Definition silent : Model := {| respond := fun _ _ _ => Returns [] |}.

Definition a_planner : PlannerAgent.t := {| PlannerAgent.model := silent |}.

(** A double-quoted item of a list literal. *)
Definition quoted (s : string) : str := [quote] ++ lit s ++ [quote].

(** The items between brackets, separated by a comma and a space. *)
Fixpoint items (qs : list string) : str :=
  match qs with
  | [] => []
  | [q] => quoted q
  | q :: qs' => quoted q ++ lit ", " ++ items qs'
  end.

Definition bracketed (qs : list string) : str :=
  [91%N] ++ items qs ++ [93%N].

(** The text of the bracket-list example: an opening bracket, the three
    quoted items [What is X?], [How does Y work?], [Why Z?] and a
    closing bracket. *)
Definition bracket_example : str :=
  bracketed ["What is X?"; "How does Y work?"; "Why Z?"]%string.

(** The three lines of the fallback example. *)
Definition lines_example : str :=
  lit "1. What is X?" ++ [newline] ++ lit "- How does Y work?" ++ [newline]
    ++ lit "Random text without markers".

(** Six questions, and a response that lists them between brackets. *)
Definition six_items : list string :=
  ["What is a large language model?";
   "How are language models trained?";
   "What data do language models need?";
   "How are language models evaluated?";
   "What are the limits of language models?";
   "Who builds language models today?"]%string.

Definition six_questions : str := bracketed six_items.

(* ================================================================== *)
(** * Models used as inputs *)
(* ================================================================== *)

Fixpoint str_eqb (a b : str) : bool :=
  match a, b with
  | [], [] => true
  | x :: a', y :: b' => (N.eqb x y && str_eqb a' b')%bool
  | _, _ => false
  end.

Fixpoint answer_to (question : str) (answers : list (str * Outcome)) : Outcome :=
  match answers with
  | [] => Returns []
  | (q, outcome) :: rest =>
      if str_eqb q question then outcome else answer_to question rest
  end.

(** A model that answers the Planner with [plan_text], a researcher
    with the outcome listed for the question (the empty text if there is
    none) and the Synthesizer with a report. *)
Definition scripted (plan_text : str) (answers : list (str * Outcome)) : Model :=
  {| respond := fun _ prompt _ =>
       match prompt with
       | PlannerPrompt _ => Returns plan_text
       | SearchPrompt q | SearchFallbackPrompt q | SimplePrompt q
       | GoogleSearchPrompt q | GoogleFallbackPrompt q => answer_to q answers
       | SynthesisPrompt _ _ => Returns (lit "REPORT")
       | TestPrompt => Returns (lit "Hello")
       end |}.

(** The orchestrator of main.py as [initialize] leaves it. *)
Definition initialized (m : Model) : Assistant.t :=
  {| Assistant.model := Some m;
     Assistant.planner := Some {| PlannerAgent.model := m |};
     Assistant.searcher := Some (Search {| SearchAgent.model := m |});
     Assistant.synthesizer := Some {| SynthesizerAgent.model := m |} |}.

(** The Planner's answer is two numbered lines, Q1 and Q2; Q1 is
    answered A1, Q2 with the empty text. *)
Definition two_questions : Model :=
  scripted (lit "1. Q1" ++ [newline] ++ lit "2. Q2")
           [(lit "Q1", Returns (lit "A1")); (lit "Q2", Returns [])].

(** The Planner's answer is the one line Q1, whose research fails. *)
Definition one_question_failing : Model :=
  scripted (lit "1. Q1") [(lit "Q1", Fails (lit "503 Service Unavailable"))].

(** A model without search grounding: a call with the tool fails with
    the message the [SearchAgent] looks for, a call without it is
    answered. *)
Definition grounding_unsupported : Model :=
  {| respond := fun _ _ tools =>
       match tools with
       | GoogleSearchRetrieval =>
           Fails (lit "400 Search Grounding is not supported.")
       | NoTools => Returns (lit "A1")
       end |}.

(** A model out of quota for calls with the tool. *)
Definition quota_exceeded : Model :=
  {| respond := fun _ _ tools =>
       match tools with
       | GoogleSearchRetrieval => Fails (lit "429 Quota exceeded")
       | NoTools => Returns (lit "A1")
       end |}.

(** A model that finds nothing with the tool and answers without it. *)
Definition tool_finds_nothing : Model :=
  {| respond := fun _ _ tools =>
       match tools with
       | GoogleSearchRetrieval => Returns []
       | NoTools => Returns (lit "A1")
       end |}.

(** A model whose every call fails. *)
Definition unreachable : Model :=
  {| respond := fun _ _ _ => Fails (lit "503 Service Unavailable") |}.

(** A model that answers everything with the same text. *)
Definition answering (text : str) : Model :=
  {| respond := fun _ _ _ => Returns text |}.

(* ================================================================== *)
(** * main.py: the name of the file of a saved report *)
(* ================================================================== *)

Module SaveReport.

Section Naming.

(** [str.isalnum] on one character: the Unicode tables of the
    interpreter. *)
Variable isalnum : char -> bool.

(** [c.isalnum() or c in (' ', '-', '_')] *)
Definition kept (c : char) : bool :=
  (isalnum c || existsb (N.eqb c) [32; 45; 95]%N)%bool.

(** [s.replace(' ', '_')] *)
Definition spaces_to_underscores (s : str) : str :=
  List.map (fun c => if N.eqb c 32 then 95%N else c) s.

(** [safe_topic], after the two assignments of [save_report_to_file]. *)
Definition safe_topic (topic : str) : str :=
  spaces_to_underscores (rstrip_by isspace (filter kept topic)).

(** [str(i)] for an [int]. *)
Definition str_of_Z (i : Z) : str :=
  lit (NilEmpty.string_of_int (Z.to_int i)).

(** [filename]: [prefix] is [research_report_] in main.py and
    simple_research.py and [google_search_report_] in
    google_search_research.py; [now] is [int(time.time())]. *)
Definition filename (prefix : str) (topic : str) (now : Z) : str :=
  prefix ++ safe_topic topic ++ lit "_" ++ str_of_Z now ++ lit ".txt".

End Naming.

(** [isalnum] on the ASCII characters. *)
Definition ascii_isalnum : char -> bool :=
  in_ranges [(48, 57); (65, 90); (97, 122)]%N.

End SaveReport.

(* ================================================================== *)
(** * example_usage.py *)
(* ================================================================== *)

Module ExampleUsage.

Definition test_topic : str := lit "Artificial Intelligence in Healthcare".
Definition test_question : str := lit "What is machine learning?".

(** [test_individual_agents()] *)
Definition test_individual_agents (env : Config.Env) : M bool :=
  try_except
    (model <- Config.configure_gemini env ;;
     let planner := {| PlannerAgent.model := model |} in
     questions <- PlannerAgent.create_research_plan planner test_topic ;;
     match questions with
     | [] => ret false
     | _ :: _ =>
         let searcher := {| SearchAgent.model := model |} in
         research_data <- SearchAgent.research_question searcher test_question ;;
         if truthy research_data then
           let synthesizer := {| SynthesizerAgent.model := model |} in
           let test_results := [(test_question, research_data)] in
           report <- SynthesizerAgent.create_final_report
                       synthesizer test_topic test_results ;;
           if (truthy report && negb (startswith report (lit "Error")))%bool
           then ret true
           else ret false
         else ret false
     end)
    (fun e => ret false).

End ExampleUsage.

(* ================================================================== *)
(** * Splitting a string put together from two *)
(* ================================================================== *)

(** The pieces of [s ++ t], from the pieces of [s] and those of [t]:
    the last piece of [s] and the first piece of [t] are one piece. *)
Fixpoint glue (pieces more : list str) : list str :=
  match pieces with
  | [] => more
  | [piece] =>
      match more with
      | [] => [piece]
      | first :: rest => (piece ++ first) :: rest
      end
  | piece :: pieces' => piece :: glue pieces' more
  end.

(** A string of whitespace only. *)
Definition blank (s : str) : Prop := Forall (fun c => isspace c = true) s.

(* ================================================================== *)
(** * Properties of runs *)
(* ================================================================== *)

(** [c] never raises. *)
Definition returns {A} (c : M A) : Prop :=
  forall log, exists a, snd (run c log) = Value a.

(** [c] only appends to the log, and what it appends satisfies [P]. *)
Definition appends {A} (P : Log -> Prop) (c : M A) : Prop :=
  forall log, exists added, fst (run c log) = log ++ added /\ P added.

(** Nothing in what was appended is a call of the Synthesizer. *)
Definition no_synthesis (added : Log) : Prop := synthesizer_calls added = [].

(** Every call of the Synthesizer in what was appended has results. *)
Definition with_results (added : Log) : Prop :=
  Forall (fun call => snd call <> []) (synthesizer_calls added).

(** What the text of a response gives once [if text:] has chosen
    between it and a default. *)
Definition text_or (default : str) (outcome : Outcome) : str :=
  match outcome with
  | Returns (c :: text) => c :: text
  | _ => default
  end.

(** The log without the calls of the model: the agent methods entered
    and the sleeps, in their order. *)
Definition is_generate (ev : Event) : bool :=
  match ev with Generate _ _ _ => true | _ => false end.

Definition steps (log : Log) : Log :=
  filter (fun ev => negb (is_generate ev)) log.

(** The steps of the research of a plan: each question is entered and
    followed by a sleep. *)
Definition research_steps (delay : N) (research_plan : list str) : Log :=
  flat_map (fun question => [Enter_research_question question; Sleep delay])
           research_plan.

(** [enumerate(research_results, 1)] *)
Definition enumerate_from_1 {A} (l : list A) : list (N * A) :=
  combine (List.map N.of_nat (seq 1 (List.length l))) l.

(** What the line loop of the fallback adds comes from an accepted line
    and is not empty. *)
Definition from_accepted_line (lines : list str) (q : str) : Prop :=
  exists line,
    In line lines
    /\ Extract.looks_like_question (strip line) = true
    /\ q = Extract.clean_line (strip line)
    /\ q <> [].

(* ================================================================== *)
(** * Question extraction: facts *)
(* ================================================================== *)

Section ExtractionFacts.

Lemma cut_spec c s before after :
  Re.cut c s = Some (before, after) <->
  s = before ++ c :: after /\ ~ In c before.
Proof.
  revert before after. induction s as [|d s IH]; intros before after; simpl.
  - split; [discriminate|]. intros [H _]. destruct before; discriminate.
  - destruct (N.eqb_spec d c) as [->|Hdc].
    + split.
      * intros [= <- <-]. simpl. auto.
      * intros [H Hn]. destruct before as [|b before']; simpl in H.
        -- now injection H as ->.
        -- injection H as <- _. exfalso. apply Hn. now left.
    + destruct (Re.cut c s) as [[b a]|] eqn:E.
      * split.
        -- intros [= <- <-]. destruct (proj1 (IH b a) eq_refl) as [-> Hn].
           split; [reflexivity|]. intros [H|H]; [now apply Hdc | now apply Hn].
        -- intros [H Hn]. destruct before as [|b0 before']; simpl in H.
           ++ injection H as -> _. now elim Hdc.
           ++ injection H as <- H.
              assert (Hc : Some (b, a) = Some (before', after)).
              { apply IH. split; [assumption|].
                intros Hin. apply Hn. now right. }
              now injection Hc as -> ->.
      * split; [discriminate|]. intros [H Hn].
        destruct before as [|b0 before']; simpl in H.
        -- injection H as -> _. now elim Hdc.
        -- injection H as <- H. exfalso.
           assert (Hc : None = Some (before', after)).
           { apply IH. split; [assumption|]. intros Hin. apply Hn. now right. }
           discriminate.
Qed.

(** The search finds the text between the first opening bracket and
    the first closing bracket after it. *)
Lemma search_bracket_list_spec s content :
  Re.search_bracket_list s = Some content <->
  exists before after,
    s = before ++ 91%N :: content ++ 93%N :: after
    /\ ~ In 91%N before /\ ~ In 93%N content.
Proof.
  unfold Re.search_bracket_list. split.
  - destruct (Re.cut 91%N s) as [[before rest]|] eqn:E1; [|discriminate].
    destruct (Re.cut 93%N rest) as [[c after]|] eqn:E2; [|discriminate].
    intros [= <-]. apply cut_spec in E1 as [-> H1]. apply cut_spec in E2 as [-> H2].
    now exists before, after.
  - intros (before & after & -> & H1 & H2).
    assert (E1 : Re.cut 91%N (before ++ 91%N :: content ++ 93%N :: after)
                 = Some (before, content ++ 93%N :: after))
      by now apply cut_spec.
    rewrite E1.
    assert (E2 : Re.cut 93%N (content ++ 93%N :: after) = Some (content, after))
      by now apply cut_spec.
    now rewrite E2.
Qed.

(** Every question of the list branch has more than ten characters. *)
Lemma bracket_path_long list_content q :
  In q (Extract.bracket_path list_content) -> 10 < List.length q.
Proof.
  unfold Extract.bracket_path. intros H. apply filter_In in H as [_ H].
  unfold Extract.long_enough in H. apply andb_prop in H as [_ H].
  now apply Nat.ltb_lt in H.
Qed.

Lemma scan_lines_sound lines acc q :
  In q (Extract.scan_lines lines acc) ->
  In q acc \/ from_accepted_line lines q.
Proof.
  revert acc. induction lines as [|line lines IH]; intros acc; simpl.
  - auto.
  - destruct (Extract.looks_like_question (strip line)) eqn:Hq.
    + destruct (Extract.clean_line (strip line)) as [|c cl] eqn:Hc; simpl.
      * intros H. apply IH in H as [H|(l & Hl & H)]; [now left|].
        right. exists l. split; [now right | exact H].
      * intros H. apply IH in H as [H|(l & Hl & H)].
        -- apply in_app_or in H as [H|[<-|[]]]; [now left|].
           right. exists line. rewrite Hc. repeat split; auto.
           ++ now left.
           ++ discriminate.
        -- right. exists l. split; [now right | exact H].
    + intros H. apply IH in H as [H|(l & Hl & H)]; [now left|].
      right. exists l. split; [now right | exact H].
Qed.

Lemma In_firstn {A} n (l : list A) x : In x (firstn n l) -> In x l.
Proof.
  revert l. induction n as [|n IH]; intros [|y l]; simpl; try tauto.
  intros [H|H]; [now left | right; now apply IH].
Qed.

(** The line branch gives at most five questions, each the clean-up of
    an accepted line. *)
Lemma line_path_at_most_5 response_text :
  List.length (Extract.line_path response_text) <= 5.
Proof. unfold Extract.line_path. apply firstn_le_length. Qed.

Lemma line_path_sound response_text q :
  In q (Extract.line_path response_text) ->
  from_accepted_line (split newline response_text) q.
Proof.
  unfold Extract.line_path. intros H. apply In_firstn in H.
  apply scan_lines_sound in H as [[]|H]. exact H.
Qed.

End ExtractionFacts.

(* ================================================================== *)
(** * Reasoning about runs *)
(* ================================================================== *)

Lemma synthesizer_calls_app log1 log2 :
  synthesizer_calls (log1 ++ log2)
  = synthesizer_calls log1 ++ synthesizer_calls log2.
Proof. apply flat_map_app. Qed.

Lemma generate_calls_app log1 log2 :
  generate_calls (log1 ++ log2) = generate_calls log1 ++ generate_calls log2.
Proof. apply flat_map_app. Qed.

Section Returns.

Context {A B : Type}.

Lemma returns_ret (a : A) : returns (ret a).
Proof. intros log. now exists a. Qed.

Lemma returns_emit ev : returns (emit ev).
Proof. intros log. now exists tt. Qed.

Lemma returns_bind (c : M A) (k : A -> M B) :
  returns c -> (forall a, returns (k a)) -> returns (bind c k).
Proof.
  intros Hc Hk log. unfold run, bind. destruct (Hc log) as [a Ha].
  unfold run in Ha. destruct (c log) as [log' r]. simpl in Ha. subst r.
  apply Hk.
Qed.

(** A handler that never raises makes the whole [try] safe, whatever
    the body does. *)
Lemma returns_try_except (body : M A) (handler : Exn -> M A) :
  (forall e, returns (handler e)) -> returns (try_except body handler).
Proof.
  intros Hh log. unfold run, try_except.
  destruct (body log) as [log' [a|e]]; [now exists a | apply Hh].
Qed.

End Returns.

Section Appends.

Variable P : Log -> Prop.
Hypothesis P_nil : P [].
Hypothesis P_app : forall l1 l2, P l1 -> P l2 -> P (l1 ++ l2).

Context {A B : Type}.

Lemma appends_ret (a : A) : appends P (ret a).
Proof. intros log. exists []. now rewrite app_nil_r. Qed.

Lemma appends_raise e : appends P (@raise A e).
Proof. intros log. exists []. now rewrite app_nil_r. Qed.

Lemma appends_emit ev : P [ev] -> appends P (emit ev).
Proof. intros H log. now exists [ev]. Qed.

Lemma appends_generate model prompt tools :
  (forall outcome, P [Generate prompt tools outcome]) ->
  appends P (generate_content model prompt tools).
Proof. intros H log. eexists. split; [reflexivity | apply H]. Qed.

Lemma appends_bind (c : M A) (k : A -> M B) :
  appends P c -> (forall a, appends P (k a)) -> appends P (bind c k).
Proof.
  intros Hc Hk log. unfold run, bind. destruct (Hc log) as (l1 & E1 & H1).
  unfold run in E1. destruct (c log) as [log' [a|e]]; simpl in E1; subst log'.
  - destruct (Hk a (log ++ l1)) as (l2 & E2 & H2). exists (l1 ++ l2).
    rewrite app_assoc. auto.
  - now exists l1.
Qed.

Lemma appends_try_except (body : M A) (handler : Exn -> M A) :
  appends P body -> (forall e, appends P (handler e)) ->
  appends P (try_except body handler).
Proof.
  intros Hb Hh log. unfold run, try_except.
  destruct (Hb log) as (l1 & E1 & H1).
  unfold run in E1. destruct (body log) as [log' [a|e]]; simpl in E1; subst log'.
  - now exists l1.
  - destruct (Hh e (log ++ l1)) as (l2 & E2 & H2). exists (l1 ++ l2).
    rewrite app_assoc. auto.
Qed.

Lemma appends_attribute (obj : option A) name : appends P (attribute obj name).
Proof. destruct obj; [apply appends_ret | apply appends_raise]. Qed.

End Appends.

Lemma no_synthesis_nil : no_synthesis [].
Proof. reflexivity. Qed.

Lemma no_synthesis_app l1 l2 :
  no_synthesis l1 -> no_synthesis l2 -> no_synthesis (l1 ++ l2).
Proof.
  unfold no_synthesis. intros H1 H2. now rewrite synthesizer_calls_app, H1, H2.
Qed.

Lemma with_results_nil : with_results [].
Proof. constructor. Qed.

Lemma with_results_app l1 l2 :
  with_results l1 -> with_results l2 -> with_results (l1 ++ l2).
Proof.
  unfold with_results. intros H1 H2. rewrite synthesizer_calls_app.
  apply Forall_app. now split.
Qed.

Lemma no_synthesis_with_results added : no_synthesis added -> with_results added.
Proof. unfold no_synthesis, with_results. intros ->. constructor. Qed.

Lemma appends_weaken {A} (P Q : Log -> Prop) (c : M A) :
  (forall added, P added -> Q added) -> appends P c -> appends Q c.
Proof.
  intros HPQ Hc log. destruct (Hc log) as (added & E & H). exists added. auto.
Qed.

Create HintDb runs.

#[local] Hint Resolve returns_ret returns_emit returns_bind returns_try_except
  : runs.
#[local] Hint Resolve no_synthesis_nil no_synthesis_app with_results_nil
  with_results_app : runs.

(** One step along the syntax of a computation. *)
Ltac quiet_step :=
  lazymatch goal with
  | |- appends _ (ret _) => apply appends_ret
  | |- appends _ (raise _) => apply appends_raise
  | |- appends _ (attribute _ _) => apply appends_attribute
  | |- appends _ (emit _) =>
      apply appends_emit; [..| solve [reflexivity | constructor]]
  | |- appends _ (sleep _) =>
      apply appends_emit; [..| solve [reflexivity | constructor]]
  | |- appends _ (generate_content _ _ _) =>
      apply appends_generate; [..| intros; solve [reflexivity | constructor]]
  | |- appends _ (try_except _ _) => apply appends_try_except; [..| | intros ]
  | |- appends _ (bind _ _) => apply appends_bind; [..| | intros ]
  end;
  auto with runs.

(* ================================================================== *)
(** * The agents, run *)
(* ================================================================== *)

Ltac run_out :=
  unfold run, bind, try_except, emit, generate_content, ret; simpl.

Section AgentRuns.

Variable m : Model.

Lemma create_research_plan_run topic log :
  let self := {| PlannerAgent.model := m |} in
  let log1 := log ++ [Enter_create_research_plan topic] in
  let outcome := respond m log1 (PlannerPrompt topic) NoTools in
  run (PlannerAgent.create_research_plan self topic) log
  = (log1 ++ [Generate (PlannerPrompt topic) NoTools outcome],
     Value match outcome with
           | Returns text => PlannerAgent._extract_questions self (strip text)
           | Fails _ => []
           end).
Proof.
  unfold PlannerAgent.create_research_plan. run_out.
  destruct (respond m _ _ _) as [text|msg]; [|reflexivity].
  now destruct (PlannerAgent._extract_questions _ _).
Qed.

Lemma simple_research_question_run question log :
  let log1 := log ++ [Enter_research_question question] in
  let outcome := respond m log1 (SimplePrompt question) NoTools in
  run (SimpleSearchAgent.research_question
         {| SimpleSearchAgent.model := m |} question) log
  = (log1 ++ [Generate (SimplePrompt question) NoTools outcome],
     Value (text_or [] outcome)).
Proof.
  unfold SimpleSearchAgent.research_question. run_out.
  destruct (respond m _ _ _) as [[|c text]|msg]; reflexivity.
Qed.

Lemma search_research_question_run question log :
  let log1 := log ++ [Enter_research_question question] in
  let primary := respond m log1 (SearchPrompt question) GoogleSearchRetrieval in
  let log2 :=
    log1 ++ [Generate (SearchPrompt question) GoogleSearchRetrieval primary] in
  let fallback := respond m log2 (SearchFallbackPrompt question) NoTools in
  run (SearchAgent.research_question {| SearchAgent.model := m |} question) log
  = match primary with
    | Returns text => (log2, Value text)
    | Fails message =>
        if contains SearchAgent.unsupported message
        then (log2 ++ [Generate (SearchFallbackPrompt question) NoTools fallback],
              Value (text_or [] fallback))
        else (log2, Value [])
    end.
Proof.
  unfold SearchAgent.research_question. run_out.
  destruct (respond m _ (SearchPrompt _) _) as [[|c text]|msg]; try reflexivity.
  simpl. destruct (contains _ _); [|reflexivity].
  destruct (respond m _ (SearchFallbackPrompt _) _) as [[|c text]|msg'];
    reflexivity.
Qed.

Lemma google_research_question_run question log :
  let log1 := log ++ [Enter_research_question question] in
  let primary :=
    respond m log1 (GoogleSearchPrompt question) GoogleSearchRetrieval in
  let log2 :=
    log1 ++ [Generate (GoogleSearchPrompt question) GoogleSearchRetrieval primary] in
  let fallback := respond m log2 (GoogleFallbackPrompt question) NoTools in
  run (GoogleSearchAgent.research_question
         {| GoogleSearchAgent.model := m |} question) log
  = match primary with
    | Returns (c :: text) => (log2, Value (c :: text))
    | _ => (log2 ++ [Generate (GoogleFallbackPrompt question) NoTools fallback],
            Value (text_or [] fallback))
    end.
Proof.
  unfold GoogleSearchAgent.research_question. run_out.
  destruct (respond m _ (GoogleSearchPrompt _) _) as [[|c text]|msg]; simpl;
    try reflexivity;
    destruct (respond m _ (GoogleFallbackPrompt _) _) as [[|c' text']|msg'];
    reflexivity.
Qed.

Lemma create_final_report_run topic research_results log :
  let self := {| SynthesizerAgent.model := m |} in
  let log1 := log ++ [Enter_create_final_report topic research_results] in
  let prompt :=
    SynthesisPrompt topic
      (SynthesizerAgent._compile_research_notes self research_results) in
  let outcome := respond m log1 prompt NoTools in
  run (SynthesizerAgent.create_final_report self topic research_results) log
  = match research_results with
    | [] => (log1, Value SynthesizerAgent.no_data)
    | _ :: _ =>
        (log1 ++ [Generate prompt NoTools outcome],
         Value (text_or SynthesizerAgent.no_report outcome))
    end.
Proof.
  unfold SynthesizerAgent.create_final_report. run_out.
  destruct research_results as [|pair rest]; [reflexivity|].
  destruct (respond m _ _ _) as [[|c text]|msg]; reflexivity.
Qed.

End AgentRuns.

Lemma last_outcome_generate log prompt tools outcome :
  last_outcome (log ++ [Generate prompt tools outcome]) = Some outcome.
Proof.
  induction log as [|ev log IH]; simpl; [reflexivity|]. now rewrite IH.
Qed.

(** No researcher raises, and none calls the Synthesizer. *)
Lemma research_question_returns agent question :
  returns (research_question agent question).
Proof.
  destruct agent as [agent|agent|agent]; simpl;
    [ unfold SearchAgent.research_question
    | unfold SimpleSearchAgent.research_question
    | unfold GoogleSearchAgent.research_question ];
    apply returns_bind; auto with runs; intros _;
    apply returns_try_except; intros e; auto with runs.
  destruct (contains _ _); auto with runs.
  apply returns_bind.
  - apply returns_try_except. auto with runs.
  - intros [text|]; auto with runs.
Qed.

Lemma research_question_quiet agent question :
  appends no_synthesis (research_question agent question).
Proof.
  destruct agent as [agent|agent|agent]; simpl;
    [ unfold SearchAgent.research_question
    | unfold SimpleSearchAgent.research_question
    | unfold GoogleSearchAgent.research_question ];
    repeat (quiet_step;
            repeat match goal with
                   | |- context [if ?b then _ else _] => destruct b
                   | |- context [match ?x with Some _ => _ | None => _ end] =>
                       destruct x
                   end).
Qed.

Lemma create_research_plan_quiet agent topic :
  appends no_synthesis (PlannerAgent.create_research_plan agent topic).
Proof.
  unfold PlannerAgent.create_research_plan.
  repeat (quiet_step;
          repeat match goal with
                 | |- context [match ?x with [] => _ | _ :: _ => _ end] =>
                     destruct x
                 end).
Qed.

(* ================================================================== *)
(** * The orchestrator, run *)
(* ================================================================== *)

Section OrchestratorRuns.

Variable delay : N.

(** Researching a plan never fails to give findings, one for each
    question, and calls no Synthesizer. *)
Lemma researched_total agent research_plan log :
  exists findings log',
    researched delay agent research_plan log = Some (findings, log').
Proof.
  revert log. induction research_plan as [|question rest IH]; intros log; simpl.
  - now exists [], log.
  - destruct (research_question_returns agent question log) as [data Hdata].
    destruct (run (research_question agent question) log) as [log1 r].
    simpl in Hdata. subst r.
    destruct (IH (log1 ++ [Sleep delay])) as (findings & log2 & ->).
    now exists (data :: findings), log2.
Qed.

Lemma researched_length agent research_plan log findings log' :
  researched delay agent research_plan log = Some (findings, log') ->
  List.length findings = List.length research_plan.
Proof.
  revert log findings log'. induction research_plan as [|question rest IH];
    intros log findings log'; simpl.
  - now intros [= <- _].
  - destruct (run (research_question agent question) log) as [log1 [data|e]];
      [|discriminate].
    destruct (researched delay agent rest _) as [[fs log2]|] eqn:E;
      [|discriminate].
    intros [= <- _]. simpl. f_equal. eapply IH, E.
Qed.

Lemma researched_quiet agent research_plan log findings log' :
  researched delay agent research_plan log = Some (findings, log') ->
  exists added, log' = log ++ added /\ no_synthesis added.
Proof.
  revert log findings log'. induction research_plan as [|question rest IH];
    intros log findings log'; simpl.
  - intros [= _ <-]. exists []. rewrite app_nil_r. auto with runs.
  - destruct (research_question_quiet agent question log) as (l1 & E1 & H1).
    destruct (run (research_question agent question) log) as [log1 [data|e]];
      [|discriminate].
    simpl in E1. subst log1.
    destruct (researched delay agent rest _) as [[fs log2]|] eqn:E;
      [|discriminate].
    intros [= _ <-]. apply IH in E as (l2 & -> & H2).
    exists (l1 ++ [Sleep delay] ++ l2). rewrite !app_assoc. split; [reflexivity|].
    rewrite <- app_assoc. auto with runs.
Qed.

(** The loop appends to the accumulator the pairs with a finding, in
    the order of the plan. *)
Lemma research_loop_run self agent research_plan acc log findings log' :
  Assistant.searcher self = Some agent ->
  researched delay agent research_plan log = Some (findings, log') ->
  run (Assistant.research_loop delay self research_plan acc) log
  = (log', Value (acc ++ with_findings research_plan findings)).
Proof.
  intros Hs. revert acc log findings log'.
  induction research_plan as [|question rest IH];
    intros acc log findings log'; simpl.
  - intros [= <- <-]. unfold with_findings. simpl. now rewrite app_nil_r.
  - rewrite Hs. unfold run, bind at 1. simpl. unfold bind at 1.
    unfold run in *.
    destruct (research_question agent question log) as [log1 [data|e]];
      [|discriminate].
    destruct (researched delay agent rest _) as [[fs log2]|] eqn:E;
      [|discriminate].
    intros [= <- <-]. unfold bind at 1, sleep, emit. simpl.
    rewrite (IH _ _ _ _ E). unfold with_findings. simpl.
    destruct (truthy data); [|reflexivity].
    now rewrite <- app_assoc.
Qed.

Lemma research_loop_quiet self research_plan acc :
  appends no_synthesis (Assistant.research_loop delay self research_plan acc).
Proof.
  revert acc. induction research_plan as [|question rest IH]; intros acc; simpl.
  - quiet_step.
  - repeat first [ apply research_question_quiet | apply IH | quiet_step ].
Qed.

Lemma create_final_report_with_results sy topic pair pairs :
  appends with_results
    (SynthesizerAgent.create_final_report sy topic (pair :: pairs)).
Proof.
  unfold SynthesizerAgent.create_final_report. quiet_step.
  - apply appends_emit. repeat constructor. discriminate.
  - repeat (quiet_step;
            repeat match goal with
                   | |- context [if ?b then _ else _] => destruct b
                   end).
Qed.

(** Whatever the state of the orchestrator, a Synthesizer it calls
    gets results. *)
Lemma conduct_research_with_results self topic :
  appends with_results (Assistant.conduct_research delay self topic).
Proof.
  unfold Assistant.conduct_research.
  destruct (Assistant.model self); [|quiet_step].
  repeat first
    [ apply create_final_report_with_results
    | eapply appends_weaken;
      [ apply no_synthesis_with_results
      | first [ apply create_research_plan_quiet | apply research_loop_quiet ] ]
    | quiet_step
    | match goal with
      | |- context [match ?x with [] => _ | _ :: _ => _ end] => destruct x
      end ].
Qed.

(** A run of an initialized orchestrator, given what the Planner and
    the researcher answer. *)
Lemma conduct_research_run self m p agent sy topic log0 log1 research_plan
      findings log2 :
  Assistant.model self = Some m ->
  Assistant.planner self = Some p ->
  Assistant.searcher self = Some agent ->
  Assistant.synthesizer self = Some sy ->
  run (PlannerAgent.create_research_plan p topic) log0
  = (log1, Value research_plan) ->
  researched delay agent research_plan log1 = Some (findings, log2) ->
  run (Assistant.conduct_research delay self topic) log0
  = match research_plan, with_findings research_plan findings with
    | [], _ => (log1, Value Assistant.no_plan)
    | _ :: _, [] => (log2, Value Assistant.no_information)
    | _ :: _, (_ :: _) as research_results =>
        run (SynthesizerAgent.create_final_report sy topic research_results)
          log2
    end.
Proof.
  intros Hm Hp Hs Hsy Hplan Hres.
  unfold Assistant.conduct_research. rewrite Hm, Hp, Hsy.
  unfold run, bind at 1. simpl. unfold bind at 1. unfold run in Hplan.
  rewrite Hplan. destruct research_plan as [|question rest]; [reflexivity|].
  unfold bind at 1.
  pose proof (research_loop_run self (question :: rest) [] log1 Hs Hres) as Hloop.
  unfold run in Hloop. rewrite Hloop. simpl app.
  destruct (with_findings (question :: rest) findings); reflexivity.
Qed.

End OrchestratorRuns.

(* ================================================================== *)
(** * The claims *)
(* ================================================================== *)

(** C1.  Let an initialized orchestrator run on a topic; let
    [research_plan] be what the Planner returns and [findings] what the
    researcher returns for its questions, one after the other.  Then
    [conduct_research] calls the Synthesizer with exactly the pairs
    (question, finding) whose finding is not empty, in the order of the
    plan, once; when no finding is left it does not call it. *)
Theorem conduct_research_synthesizes_nonempty_findings :
  forall delay self m p agent sy topic log0 log1 research_plan findings log2,
    Assistant.model self = Some m ->
    Assistant.planner self = Some p ->
    Assistant.searcher self = Some agent ->
    Assistant.synthesizer self = Some sy ->
    run (PlannerAgent.create_research_plan p topic) log0
    = (log1, Value research_plan) ->
    researched delay agent research_plan log1 = Some (findings, log2) ->
    synthesizer_calls
      (fst (run (Assistant.conduct_research delay self topic) log0))
    = synthesizer_calls log0
        ++ match with_findings research_plan findings with
           | [] => []
           | (_ :: _) as research_results => [(topic, research_results)]
           end.
Proof.
  intros delay self m p agent sy topic log0 log1 research_plan findings log2
         Hm Hp Hs Hsy Hplan Hres.
  rewrite (conduct_research_run delay self topic log0 Hm Hp Hs Hsy Hplan Hres).
  assert (H1 : synthesizer_calls log1 = synthesizer_calls log0).
  { destruct (create_research_plan_quiet p topic log0) as (added & E & Hq).
    rewrite Hplan in E. simpl in E. subst log1.
    rewrite synthesizer_calls_app, Hq. apply app_nil_r. }
  assert (H2 : synthesizer_calls log2 = synthesizer_calls log0).
  { apply researched_quiet in Hres as (added & -> & Hq).
    rewrite synthesizer_calls_app, Hq, app_nil_r. exact H1. }
  destruct research_plan as [|question rest].
  - simpl. now rewrite H1, app_nil_r.
  - destruct (with_findings (question :: rest) findings) as [|pair pairs].
    + simpl. now rewrite H2, app_nil_r.
    + destruct sy as [msy]. rewrite create_final_report_run. simpl.
      rewrite !synthesizer_calls_app, H2. simpl. now rewrite app_nil_r.
Qed.

(** The run of C1's example: the plan is Q1, Q2; Q1 gives A1 and Q2 the
    empty text; the Synthesizer is called once, with the pair (Q1, A1). *)
Lemma conduct_research_synthesizes_nonempty_findings_witness :
  run (PlannerAgent.create_research_plan
         {| PlannerAgent.model := two_questions |} (lit "topic")) []
  = (fst (run (PlannerAgent.create_research_plan
                 {| PlannerAgent.model := two_questions |} (lit "topic")) []),
     Value [lit "Q1"; lit "Q2"])
  /\ option_map fst
       (researched 1 (Search {| SearchAgent.model := two_questions |})
          [lit "Q1"; lit "Q2"]
          (fst (run (PlannerAgent.create_research_plan
                       {| PlannerAgent.model := two_questions |} (lit "topic"))
                  [])))
     = Some [lit "A1"; []]
  /\ synthesizer_calls
       (fst (run (MultiAgentResearchAssistant.conduct_research
                    (initialized two_questions) (lit "topic")) []))
     = [(lit "topic", [(lit "Q1", lit "A1")])].
Proof.
  split; [reflexivity|]. split; [reflexivity|].
  exact (@conduct_research_synthesizes_nonempty_findings
           1 (initialized two_questions) _ _ _ _ (lit "topic") [] _
           [lit "Q1"; lit "Q2"] [lit "A1"; []]
           (match researched 1 (Search {| SearchAgent.model := two_questions |})
                    [lit "Q1"; lit "Q2"]
                    (fst (run (PlannerAgent.create_research_plan
                                 {| PlannerAgent.model := two_questions |}
                                 (lit "topic")) []))
            with Some (_, log2) => log2 | None => [] end)
           eq_refl eq_refl eq_refl eq_refl eq_refl eq_refl).
Defined.

(** C2.  Whatever the orchestrator, the topic and the run so far, every
    call of the Synthesizer that [conduct_research] makes carries at
    least one result.  And when the Planner has returned a plan and the
    research of every question of it has come back empty, the run ends
    with the no-information message and without a call of the
    Synthesizer. *)
Theorem conduct_research_never_synthesizes_nothing :
  forall delay self topic log0,
    (exists added,
        fst (run (Assistant.conduct_research delay self topic) log0)
        = log0 ++ added
        /\ Forall (fun call => snd call <> []) (synthesizer_calls added))
    /\ forall m p agent sy log1 research_plan findings log2,
        Assistant.model self = Some m ->
        Assistant.planner self = Some p ->
        Assistant.searcher self = Some agent ->
        Assistant.synthesizer self = Some sy ->
        run (PlannerAgent.create_research_plan p topic) log0
        = (log1, Value research_plan) ->
        research_plan <> [] ->
        researched delay agent research_plan log1 = Some (findings, log2) ->
        Forall (fun finding => finding = []) findings ->
        run (Assistant.conduct_research delay self topic) log0
        = (log2, Value Assistant.no_information)
        /\ synthesizer_calls log2 = synthesizer_calls log0.
Proof.
  intros delay self topic log0. split.
  - apply conduct_research_with_results.
  - intros m p agent sy log1 research_plan findings log2
           Hm Hp Hs Hsy Hplan Hne Hres Hall.
    assert (Hnone : with_findings research_plan findings = []).
    { clear - Hall. unfold with_findings. revert research_plan.
      induction Hall as [|finding findings -> _ IH]; intros [|q plan];
        simpl; auto. }
    split.
    + rewrite (conduct_research_run delay self topic log0 Hm Hp Hs Hsy Hplan Hres).
      destruct research_plan; [contradiction|]. now rewrite Hnone.
    + destruct (create_research_plan_quiet p topic log0) as (l1 & E & Hq1).
      rewrite Hplan in E. simpl in E. subst log1.
      apply researched_quiet in Hres as (l2 & -> & Hq2).
      now rewrite !synthesizer_calls_app, Hq1, Hq2, !app_nil_r.
Qed.

(** The run of C2's example: the plan is the one question Q1, whose
    research fails. *)
Lemma conduct_research_never_synthesizes_nothing_witness :
  run (PlannerAgent.create_research_plan
         {| PlannerAgent.model := one_question_failing |} (lit "topic")) []
  = (fst (run (PlannerAgent.create_research_plan
                 {| PlannerAgent.model := one_question_failing |}
                 (lit "topic")) []),
     Value [lit "Q1"])
  /\ option_map fst
       (researched 1 (Search {| SearchAgent.model := one_question_failing |})
          [lit "Q1"]
          (fst (run (PlannerAgent.create_research_plan
                       {| PlannerAgent.model := one_question_failing |}
                       (lit "topic")) [])))
     = Some [[]]
  /\ snd (run (MultiAgentResearchAssistant.conduct_research
                 (initialized one_question_failing) (lit "topic")) [])
     = Value Assistant.no_information
  /\ synthesizer_calls
       (fst (run (MultiAgentResearchAssistant.conduct_research
                    (initialized one_question_failing) (lit "topic")) []))
     = [].
Proof.
  split; [reflexivity|]. split; [reflexivity|].
  destruct (proj2 (conduct_research_never_synthesizes_nothing
                     1 (initialized one_question_failing) (lit "topic") []))
    with (research_plan := [lit "Q1"]) (findings := [@nil char])
         (m := one_question_failing)
         (p := {| PlannerAgent.model := one_question_failing |})
         (agent := Search {| SearchAgent.model := one_question_failing |})
         (sy := {| SynthesizerAgent.model := one_question_failing |})
         (log1 := fst (run (PlannerAgent.create_research_plan
                              {| PlannerAgent.model := one_question_failing |}
                              (lit "topic")) []))
         (log2 := match researched 1
                          (Search {| SearchAgent.model := one_question_failing |})
                          [lit "Q1"]
                          (fst (run (PlannerAgent.create_research_plan
                                       {| PlannerAgent.model := one_question_failing |}
                                       (lit "topic")) []))
                  with Some (_, log2) => log2 | None => [] end)
    as [Hrun Hcalls];
    try reflexivity.
  - discriminate.
  - repeat constructor.
  - split.
    + unfold MultiAgentResearchAssistant.conduct_research. now rewrite Hrun.
    + unfold MultiAgentResearchAssistant.conduct_research. rewrite Hrun.
      exact Hcalls.
Defined.

(** C3, at an input where the plan is longer than five: a response that
    lists six questions between brackets makes [create_research_plan]
    return all six, each of them longer than ten characters.  (The cap
    [questions[:5]] sits on the line branch only.) *)
Theorem create_research_plan_six_questions :
  snd (run (PlannerAgent.create_research_plan
              {| PlannerAgent.model := answering six_questions |}
              (lit "language models")) [])
  = Value (List.map lit six_items)
  /\ List.length (List.map lit six_items) = 6
  /\ forallb (fun question => Nat.ltb 10 (List.length question))
             (List.map lit six_items)
     = true.
Proof. repeat split; vm_compute; reflexivity. Qed.

(** C4 as stated fails: the parser does not return the three items of
    the example. *)
Lemma bracket_example_is_not_three_questions :
  PlannerAgent._extract_questions a_planner bracket_example
  <> [lit "What is X?"; lit "How does Y work?"; lit "Why Z?"].
Proof. discriminate. Qed.

(** C4, amended.  On the bracket-list example the parser takes the list
    branch and returns the one item that is longer than ten characters,
    [How does Y work?]; [What is X?] has ten characters and [Why Z?]
    six, and both are dropped. *)
Theorem bracket_example_questions :
  forall self,
    Re.search_bracket_list bracket_example <> None
    /\ PlannerAgent._extract_questions self bracket_example
       = [lit "How does Y work?"]
    /\ List.length (lit "What is X?") = 10
    /\ List.length (lit "Why Z?") = 6.
Proof.
  intros self. split; [discriminate|]. repeat split.
Qed.

(** C8.  The three lines of the fallback example hold no bracket pair;
    the parser takes the line branch and returns the first two lines
    without their markers, in that order, and not the third. *)
Theorem lines_example_questions :
  forall self,
    Re.search_bracket_list lines_example = None
    /\ split newline lines_example
       = [lit "1. What is X?"; lit "- How does Y work?";
          lit "Random text without markers"]
    /\ PlannerAgent._extract_questions self lines_example
       = [lit "What is X?"; lit "How does Y work?"].
Proof. intros self. repeat split. Qed.

(** C5 as stated fails for the [GoogleSearchAgent]: its grounded call
    fails with a message that does not speak of search grounding, and
    it still makes a call without the tool. *)
Lemma google_search_agent_falls_back_on_any_fault :
  respond quota_exceeded [Enter_research_question (lit "Q1")]
          (GoogleSearchPrompt (lit "Q1")) GoogleSearchRetrieval
  = Fails (lit "429 Quota exceeded")
  /\ contains SearchAgent.unsupported (lit "429 Quota exceeded") = false
  /\ filter ungrounded
       (generate_calls
          (fst (run (GoogleSearchAgent.research_question
                       {| GoogleSearchAgent.model := quota_exceeded |}
                       (lit "Q1")) [])))
     = [(GoogleFallbackPrompt (lit "Q1"), NoTools)].
Proof. repeat split. Qed.

(** C5, amended.  When its grounded call raises, the [SearchAgent] of
    agents.py makes exactly one call without the tool if the message
    contains [Search Grounding is not supported] and no further call
    otherwise; the [GoogleSearchAgent] of google_search_research.py
    makes exactly one call without the tool whatever the message. *)
Theorem fallback_after_grounded_call_raises :
  forall m question log message,
    (respond m (log ++ [Enter_research_question question])
             (SearchPrompt question) GoogleSearchRetrieval
     = Fails message ->
     generate_calls
       (fst (run (SearchAgent.research_question
                    {| SearchAgent.model := m |} question) log))
     = generate_calls log
         ++ (SearchPrompt question, GoogleSearchRetrieval)
         :: (if contains SearchAgent.unsupported message
             then [(SearchFallbackPrompt question, NoTools)]
             else []))
    /\ (respond m (log ++ [Enter_research_question question])
                (GoogleSearchPrompt question) GoogleSearchRetrieval
        = Fails message ->
        generate_calls
          (fst (run (GoogleSearchAgent.research_question
                       {| GoogleSearchAgent.model := m |} question) log))
        = generate_calls log
            ++ [(GoogleSearchPrompt question, GoogleSearchRetrieval);
                (GoogleFallbackPrompt question, NoTools)]).
Proof.
  intros m question log message. split; intros Hfail.
  - rewrite search_research_question_run, Hfail.
    destruct (contains _ _); simpl;
      rewrite !generate_calls_app; simpl; rewrite app_nil_r;
      rewrite <- ?app_assoc; reflexivity.
  - rewrite google_research_question_run, Hfail. simpl.
    rewrite !generate_calls_app. simpl. rewrite app_nil_r.
    rewrite <- app_assoc. reflexivity.
Qed.

(** Both agents on a model without search grounding, and the
    [SearchAgent] on a model out of quota. *)
Lemma fallback_after_grounded_call_raises_witness :
  generate_calls
    (fst (run (SearchAgent.research_question
                 {| SearchAgent.model := grounding_unsupported |} (lit "Q1")) []))
  = [(SearchPrompt (lit "Q1"), GoogleSearchRetrieval);
     (SearchFallbackPrompt (lit "Q1"), NoTools)]
  /\ generate_calls
       (fst (run (GoogleSearchAgent.research_question
                    {| GoogleSearchAgent.model := grounding_unsupported |}
                    (lit "Q1")) []))
     = [(GoogleSearchPrompt (lit "Q1"), GoogleSearchRetrieval);
        (GoogleFallbackPrompt (lit "Q1"), NoTools)]
  /\ generate_calls
       (fst (run (SearchAgent.research_question
                    {| SearchAgent.model := quota_exceeded |} (lit "Q1")) []))
     = [(SearchPrompt (lit "Q1"), GoogleSearchRetrieval)].
Proof.
  split; [|split].
  - exact (proj1 (fallback_after_grounded_call_raises
                    grounding_unsupported (lit "Q1") []
                    (lit "400 Search Grounding is not supported."))
                 eq_refl).
  - exact (proj2 (fallback_after_grounded_call_raises
                    grounding_unsupported (lit "Q1") []
                    (lit "400 Search Grounding is not supported."))
                 eq_refl).
  - exact (proj1 (fallback_after_grounded_call_raises
                    quota_exceeded (lit "Q1") [] (lit "429 Quota exceeded"))
                 eq_refl).
Defined.

(** C6.  No researcher lets an exception out.  Whatever the model does,
    [research_question] returns a finding: the text of the last call it
    made if that call returned one, the empty finding if that call
    returned no text or raised.  So a call that raises with no fallback
    after it, or a fallback that fails as well, gives the empty finding
    as a value. *)
Theorem research_question_never_raises :
  forall agent question log,
    snd (run (research_question agent question) log)
    = Value match last_outcome
                    (fst (run (research_question agent question) log))
            with
            | Some outcome => text_or [] outcome
            | None => []
            end
    /\ forall message,
        last_outcome (fst (run (research_question agent question) log))
        = Some (Fails message) ->
        snd (run (research_question agent question) log) = Value [].
Proof.
  intros agent question log.
  assert (H : snd (run (research_question agent question) log)
              = Value match last_outcome
                              (fst (run (research_question agent question) log))
                      with
                      | Some outcome => text_or [] outcome
                      | None => []
                      end).
  { destruct agent as [[m]|[m]|[m]]; simpl.
    - rewrite search_research_question_run.
      destruct (respond m _ (SearchPrompt _) _) as [[|c text]|msg] eqn:E1;
        simpl; rewrite ?last_outcome_generate; try reflexivity.
      destruct (contains _ _); simpl; now rewrite last_outcome_generate.
    - rewrite simple_research_question_run. simpl.
      now rewrite last_outcome_generate.
    - rewrite google_research_question_run.
      destruct (respond m _ (GoogleSearchPrompt _) _) as [[|c text]|msg] eqn:E1;
        simpl; now rewrite last_outcome_generate. }
  split; [exact H|]. intros message Hlast. now rewrite H, Hlast.
Qed.

(** The three researchers on a model whose every call fails. *)
Lemma research_question_never_raises_witness :
  snd (run (research_question (Search {| SearchAgent.model := unreachable |})
              (lit "Q1")) []) = Value []
  /\ snd (run (research_question
                 (SimpleSearch {| SimpleSearchAgent.model := unreachable |})
                 (lit "Q1")) []) = Value []
  /\ snd (run (research_question
                 (GoogleSearch {| GoogleSearchAgent.model := unreachable |})
                 (lit "Q1")) []) = Value [].
Proof.
  split; [|split];
    apply (proj2 (research_question_never_raises _ (lit "Q1") []))
      with (message := lit "503 Service Unavailable");
    reflexivity.
Defined.

(** C7.  With no results [create_final_report] returns the no-data
    message at once: the call is all it leaves in the log, and the
    model is not called. *)
Theorem create_final_report_without_results :
  forall self topic log,
    run (SynthesizerAgent.create_final_report self topic []) log
    = (log ++ [Enter_create_final_report topic []],
       Value SynthesizerAgent.no_data)
    /\ generate_calls
         (fst (run (SynthesizerAgent.create_final_report self topic []) log))
       = generate_calls log.
Proof.
  intros [m] topic log. rewrite create_final_report_run. split; [reflexivity|].
  simpl. rewrite generate_calls_app. apply app_nil_r.
Qed.

(** C10.  An orchestrator whose [model] is [None] answers
    [conduct_research] with the not-initialized message and leaves the
    log as it was: no agent is entered and the model is not called.
    This holds for the three orchestrators, whatever they sleep. *)
Theorem conduct_research_not_initialized :
  forall delay self topic log,
    Assistant.model self = None ->
    run (Assistant.conduct_research delay self topic) log
    = (log, Value Assistant.not_initialized).
Proof.
  intros delay self topic log Hm. unfold Assistant.conduct_research.
  now rewrite Hm.
Qed.

(** The orchestrators of main.py and simple_research.py right after
    [__init__]. *)
Lemma conduct_research_not_initialized_witness :
  Assistant.model Assistant.__init__ = None
  /\ run (MultiAgentResearchAssistant.conduct_research
            Assistant.__init__ (lit "topic")) []
     = ([], Value Assistant.not_initialized)
  /\ run (SimpleMultiAgentResearchAssistant.conduct_research
            Assistant.__init__ (lit "topic")) []
     = ([], Value Assistant.not_initialized).
Proof.
  split; [reflexivity|]. split.
  - apply (conduct_research_not_initialized 1 Assistant.__init__). reflexivity.
  - apply (conduct_research_not_initialized 2 Assistant.__init__). reflexivity.
Defined.

(** C9.  Two runs of [_extract_questions] on the same response text
    give the same questions, and two runs of [_compile_research_notes]
    on the same results the same notes, whatever the agents and their
    models; so two runs of the Planner in which the model answers with
    the same text give the same plan, whatever else the models do and
    whatever happened before. *)
Theorem extraction_and_notes_are_functions_of_their_input :
  forall planner1 planner2 synthesizer1 synthesizer2 response_text
         research_results,
    PlannerAgent._extract_questions planner1 response_text
    = PlannerAgent._extract_questions planner2 response_text
    /\ SynthesizerAgent._compile_research_notes synthesizer1 research_results
       = SynthesizerAgent._compile_research_notes synthesizer2 research_results
    /\ forall topic log1 log2,
        respond (PlannerAgent.model planner1)
                (log1 ++ [Enter_create_research_plan topic])
                (PlannerPrompt topic) NoTools
        = Returns response_text ->
        respond (PlannerAgent.model planner2)
                (log2 ++ [Enter_create_research_plan topic])
                (PlannerPrompt topic) NoTools
        = Returns response_text ->
        snd (run (PlannerAgent.create_research_plan planner1 topic) log1)
        = snd (run (PlannerAgent.create_research_plan planner2 topic) log2).
Proof.
  intros [m1] [m2] synthesizer1 synthesizer2 response_text research_results.
  split; [reflexivity|]. split; [reflexivity|].
  intros topic log1 log2 H1 H2. simpl in H1, H2.
  rewrite !create_research_plan_run, H1, H2. reflexivity.
Qed.

(** Two Planners with different models, after different runs, on the
    same response text. *)
Lemma extraction_and_notes_are_functions_of_their_input_witness :
  snd (run (PlannerAgent.create_research_plan
              {| PlannerAgent.model := two_questions |} (lit "topic")) [])
  = snd (run (PlannerAgent.create_research_plan
                {| PlannerAgent.model :=
                     answering (lit "1. Q1" ++ [newline] ++ lit "2. Q2") |}
                (lit "topic"))
           [Sleep 2]).
Proof.
  apply (proj2 (proj2 (extraction_and_notes_are_functions_of_their_input
                         {| PlannerAgent.model := two_questions |}
                         {| PlannerAgent.model :=
                              answering (lit "1. Q1" ++ [newline] ++ lit "2. Q2") |}
                         {| SynthesizerAgent.model := silent |}
                         {| SynthesizerAgent.model := silent |}
                         (lit "1. Q1" ++ [newline] ++ lit "2. Q2") [])));
    reflexivity.
Defined.

(* ================================================================== *)
(** * initialize *)
(* ================================================================== *)

(** Without an API key [initialize] fails and leaves the orchestrator
    as it was, so that [conduct_research] still finds no model after
    [__init__]; with a key the model is set, whether the validation
    passes or not. *)
Lemma initialize_without_key make_searcher env self log :
  Config.GOOGLE_API_KEY env = None ->
  run (Assistant.initialize make_searcher env self) log
  = (log, Value (self, false)).
Proof.
  intros Hkey. unfold Assistant.initialize, Config.configure_gemini.
  rewrite Hkey. reflexivity.
Qed.

Lemma initialize_with_key make_searcher env self log c key :
  Config.GOOGLE_API_KEY env = Some (c :: key) ->
  exists log' self' ok,
    run (Assistant.initialize make_searcher env self) log
    = (log', Value (self', ok))
    /\ Assistant.model self' = Some (Config.gemini env).
Proof.
  intros Hkey.
  unfold Assistant.initialize, Config.validate_api_key, Config.configure_gemini.
  rewrite Hkey. run_out.
  destruct (respond _ _ _ _); simpl; eauto.
Qed.

(* ================================================================== *)
(** * Python strings: facts *)
(* ================================================================== *)

Section StringFacts.

Variable p : char -> bool.

Lemma takewhile_dropwhile s : s = takewhile p s ++ dropwhile p s.
Proof.
  induction s as [|c s IH]; simpl; [reflexivity|].
  destruct (p c); simpl; [now rewrite <- IH | reflexivity].
Qed.

Lemma dropwhile_suffix s : exists dropped, s = dropped ++ dropwhile p s.
Proof. exists (takewhile p s). apply takewhile_dropwhile. Qed.

Lemma dropwhile_head s c rest : dropwhile p s = c :: rest -> p c = false.
Proof.
  induction s as [|d s IH]; simpl; [discriminate|].
  destruct (p d) eqn:E; [exact IH|]. now intros [= <- _].
Qed.

(** Stripping on the right leaves a prefix. *)
Lemma rstrip_by_prefix s : exists dropped, s = rstrip_by p s ++ dropped.
Proof.
  unfold rstrip_by. exists (rev (takewhile p (rev s))).
  rewrite <- rev_app_distr, <- takewhile_dropwhile. symmetry. apply rev_involutive.
Qed.

(** Stripping leaves a piece of the string. *)
Lemma strip_by_infix s :
  exists before after, s = before ++ strip_by p s ++ after.
Proof.
  unfold strip_by, lstrip_by.
  destruct (dropwhile_suffix s) as [before Hb].
  destruct (rstrip_by_prefix (dropwhile p s)) as [after Ha].
  exists before, after. now rewrite <- Ha.
Qed.

Lemma strip_by_In s c : In c (strip_by p s) -> In c s.
Proof.
  destruct (strip_by_infix s) as (before & after & E). intros H.
  rewrite E. apply in_or_app. right. apply in_or_app. now left.
Qed.

Lemma strip_by_length s : List.length (strip_by p s) <= List.length s.
Proof.
  destruct (strip_by_infix s) as (before & after & E).
  rewrite E at 2. rewrite !length_app. lia.
Qed.

(** What is left begins with a character that is not stripped ... *)
Lemma strip_by_first s c rest : strip_by p s = c :: rest -> p c = false.
Proof.
  unfold strip_by, lstrip_by. intros H.
  destruct (rstrip_by_prefix (dropwhile p s)) as [dropped E].
  rewrite H in E. simpl in E. eapply dropwhile_head, E.
Qed.

(** ... and ends with one. *)
Lemma strip_by_last s init c : strip_by p s = init ++ [c] -> p c = false.
Proof.
  unfold strip_by, rstrip_by. intros H.
  apply (f_equal (@rev char)) in H.
  rewrite rev_involutive, rev_app_distr in H. simpl in H.
  eapply dropwhile_head, H.
Qed.

End StringFacts.

Lemma split_not_nil sep s : split sep s <> [].
Proof.
  destruct s as [|c s]; simpl; [discriminate|].
  destruct (N.eqb c sep); [discriminate|]. now destruct (split sep s).
Qed.

(** No piece of a split holds the separator, and none is longer than
    the string. *)
Lemma split_piece sep s piece :
  In piece (split sep s) ->
  ~ In sep piece
  /\ List.length piece <= List.length s
  /\ forall c, In c piece -> In c s.
Proof.
  revert piece. induction s as [|c s IH]; intros piece; simpl.
  - intros [<-|[]]. repeat split; auto.
  - destruct (N.eqb_spec c sep) as [->|Hc].
    + intros [<-|H].
      * repeat split; simpl; auto; try lia; try tauto.
      * destruct (IH _ H) as (H1 & H2 & H3). repeat split; auto.
    + pose proof (split_not_nil sep s) as Hne.
      destruct (split sep s) as [|first pieces]; [contradiction|].
      intros [<-|H].
      * destruct (IH first (or_introl eq_refl)) as (H1 & H2 & H3).
        repeat split; simpl.
        -- intros [E|E]; [now apply Hc | now apply H1].
        -- lia.
        -- intros d [<-|Hd]; auto.
      * destruct (IH piece (or_intror H)) as (H1 & H2 & H3).
        repeat split; auto.
Qed.

(* ================================================================== *)
(** * More on question extraction *)
(* ================================================================== *)

Lemma not_quote c :
  existsb (N.eqb c) [quote; apostrophe] = false ->
  c <> quote /\ c <> apostrophe.
Proof.
  simpl. intros H. apply orb_false_elim in H as [H1 H2].
  apply orb_false_elim in H2 as [H2 _].
  split; intros ->; discriminate.
Qed.

(** Both ends of a string stripped of its quotes. *)
Lemma strip_quotes_ends s :
  let q := strip_chars [quote; apostrophe] s in
  (forall c rest, q = c :: rest -> c <> quote /\ c <> apostrophe)
  /\ (forall init c, q = init ++ [c] -> c <> quote /\ c <> apostrophe).
Proof.
  unfold strip_chars. split.
  - intros c rest H. apply not_quote.
    exact (@strip_by_first
             (fun c => existsb (N.eqb c) [quote; apostrophe]) s c rest H).
  - intros init c H. apply not_quote.
    exact (@strip_by_last
             (fun c => existsb (N.eqb c) [quote; apostrophe]) s init c H).
Qed.

Lemma clean_item_chars piece c :
  In c (Extract.clean_item piece) -> In c piece.
Proof.
  unfold Extract.clean_item, strip_chars, strip. intros H.
  now apply strip_by_In, strip_by_In in H.
Qed.

Lemma clean_item_length piece :
  List.length (Extract.clean_item piece) <= List.length piece.
Proof.
  unfold Extract.clean_item, strip_chars, strip.
  etransitivity; apply strip_by_length.
Qed.

Lemma filter_none {A} (f : A -> bool) (l : list A) :
  (forall x, In x l -> f x = false) -> filter f l = [].
Proof.
  induction l as [|x l IH]; intros H; simpl; [reflexivity|].
  rewrite (H x (or_introl eq_refl)). apply IH. intros y Hy. apply H. now right.
Qed.

(** The line loop as a pipeline: strip, select, clean, drop what is
    empty. *)
Lemma scan_lines_pipeline lines questions :
  Extract.scan_lines lines questions
  = questions
      ++ filter truthy
           (List.map Extract.clean_line
              (filter Extract.looks_like_question (List.map strip lines))).
Proof.
  revert questions. induction lines as [|line lines IH]; intros questions; simpl.
  - now rewrite app_nil_r.
  - destruct (Extract.looks_like_question (strip line)); simpl; [|apply IH].
    destruct (truthy (Extract.clean_line (strip line))); simpl; [|apply IH].
    rewrite IH. now rewrite <- app_assoc.
Qed.

(** X1.  A pair of brackets anywhere in the response decides the
    parse: the questions are the long enough items of what stands
    between the first opening bracket and the first closing bracket
    after it, and the lines of the response are not looked at.  If no
    more than ten characters stand between the brackets, there is no
    question at all. *)
Theorem bracket_pair_takes_precedence :
  forall self before content after,
    ~ In 91%N before ->
    ~ In 93%N content ->
    PlannerAgent._extract_questions self
      (before ++ 91%N :: content ++ 93%N :: after)
    = filter (fun q => (truthy q && Nat.ltb 10 (List.length q))%bool)
        (List.map (fun q => strip_chars [quote; apostrophe] (strip q))
           (split comma content))
    /\ (List.length content <= 10 ->
        PlannerAgent._extract_questions self
          (before ++ 91%N :: content ++ 93%N :: after)
        = []).
Proof.
  intros self before content after Hopen Hclose.
  assert (E : Re.search_bracket_list
                (before ++ 91%N :: content ++ 93%N :: after) = Some content).
  { apply search_bracket_list_spec. now exists before, after. }
  unfold PlannerAgent._extract_questions. rewrite E. split; [reflexivity|].
  intros Hshort. unfold Extract.bracket_path. apply filter_none.
  intros q Hq. apply in_map_iff in Hq as (piece & <- & Hpiece).
  unfold Extract.long_enough. apply andb_false_intro2. apply Nat.ltb_ge.
  pose proof (clean_item_length piece).
  destruct (split_piece _ _ _ Hpiece) as (_ & Hlen & _).
  eapply Nat.le_trans; [exact H|]. eapply Nat.le_trans; [exact Hlen|exact Hshort].
Qed.

(** Two numbered questions, the first with a reference between
    brackets: the plan is empty. *)
Lemma bracket_pair_takes_precedence_witness :
  PlannerAgent._extract_questions a_planner
    (lit "1. Is solar power cheap " ++ 91%N :: lit "1" ++ 93%N
       :: lit "?" ++ [newline] ++ lit "2. Is wind power cheap?")
  = [].
Proof.
  refine (proj2 (bracket_pair_takes_precedence
                   a_planner (lit "1. Is solar power cheap ") (lit "1")
                   (lit "?" ++ [newline] ++ lit "2. Is wind power cheap?")
                   _ _) _).
  - vm_compute. intuition discriminate.
  - vm_compute. intuition discriminate.
  - vm_compute. lia.
Defined.

(** X2.  A question of the list branch has more than ten characters and
    holds neither a comma nor a closing bracket: an item with a comma
    inside is cut at the comma. *)
Theorem bracket_questions_are_long_and_comma_free :
  forall self response_text q,
    Re.search_bracket_list response_text <> None ->
    In q (PlannerAgent._extract_questions self response_text) ->
    10 < List.length q /\ ~ In comma q /\ ~ In 93%N q.
Proof.
  intros self response_text q Hsearch Hq.
  unfold PlannerAgent._extract_questions in Hq.
  destruct (Re.search_bracket_list response_text) as [content|] eqn:E;
    [|contradiction].
  apply search_bracket_list_spec in E as (before & after & _ & _ & Hclose).
  split; [eapply bracket_path_long, Hq|].
  unfold Extract.bracket_path in Hq. apply filter_In in Hq as [Hq _].
  apply in_map_iff in Hq as (piece & <- & Hpiece).
  destruct (split_piece _ _ _ Hpiece) as (Hcomma & _ & Hchars).
  split; intros H; apply clean_item_chars in H; auto.
Qed.

Lemma bracket_questions_are_long_and_comma_free_witness :
  10 < List.length (lit "How does Y work?")
  /\ ~ In comma (lit "How does Y work?")
  /\ ~ In 93%N (lit "How does Y work?").
Proof.
  apply (bracket_questions_are_long_and_comma_free a_planner bracket_example).
  - discriminate.
  - vm_compute. now left.
Defined.

(** X3.  Without a pair of brackets the questions are the first five
    of: the lines of the response, stripped, that begin with 1. to 5.,
    with a dash or a star, or hold a question mark and more than twenty
    characters; each without its marker and its quotes; those that
    become empty dropped.  They keep the order of the lines. *)
Theorem line_questions_are_the_first_five_accepted_lines :
  forall self response_text,
    Re.search_bracket_list response_text = None ->
    PlannerAgent._extract_questions self response_text
    = firstn 5
        (filter truthy
           (List.map Extract.clean_line
              (filter Extract.looks_like_question
                 (List.map strip (split newline response_text)))))
    /\ List.length (PlannerAgent._extract_questions self response_text) <= 5.
Proof.
  intros self response_text Hsearch.
  unfold PlannerAgent._extract_questions. rewrite Hsearch.
  unfold Extract.line_path. rewrite scan_lines_pipeline.
  rewrite app_nil_l. split; [reflexivity | apply firstn_le_length].
Qed.

(** Seven numbered lines: five questions. *)
Lemma line_questions_are_the_first_five_accepted_lines_witness :
  PlannerAgent._extract_questions a_planner
    (lit "1. A?" ++ [newline] ++ lit "2. B?" ++ [newline] ++ lit "3. C?"
       ++ [newline] ++ lit "4. D?" ++ [newline] ++ lit "5. E?" ++ [newline]
       ++ lit "- F?" ++ [newline] ++ lit "* G?")
  = [lit "A?"; lit "B?"; lit "C?"; lit "D?"; lit "E?"].
Proof.
  exact (proj1 (line_questions_are_the_first_five_accepted_lines
                  a_planner
                  (lit "1. A?" ++ [newline] ++ lit "2. B?" ++ [newline]
                     ++ lit "3. C?" ++ [newline] ++ lit "4. D?" ++ [newline]
                     ++ lit "5. E?" ++ [newline] ++ lit "- F?" ++ [newline]
                     ++ lit "* G?")
                  eq_refl)).
Defined.

(** X4.  Whatever the response, no question of the plan is empty, and
    none begins or ends with a double quote or an apostrophe. *)
Theorem questions_are_nonempty_and_unquoted :
  forall self response_text q,
    In q (PlannerAgent._extract_questions self response_text) ->
    q <> []
    /\ (forall c rest, q = c :: rest -> c <> quote /\ c <> apostrophe)
    /\ (forall init c, q = init ++ [c] -> c <> quote /\ c <> apostrophe).
Proof.
  intros self response_text q Hq. unfold PlannerAgent._extract_questions in Hq.
  destruct (Re.search_bracket_list response_text) as [content|].
  - unfold Extract.bracket_path in Hq. apply filter_In in Hq as [Hq Hlong].
    split.
    + intros ->. discriminate.
    + apply in_map_iff in Hq as (piece & <- & _). apply strip_quotes_ends.
  - apply line_path_sound in Hq as (line & _ & _ & -> & Hne).
    split; [exact Hne | apply strip_quotes_ends].
Qed.

Lemma questions_are_nonempty_and_unquoted_witness :
  lit "How does Y work?" <> []
  /\ (forall c rest,
         lit "How does Y work?" = c :: rest -> c <> quote /\ c <> apostrophe)
  /\ (forall init c,
         lit "How does Y work?" = init ++ [c] -> c <> quote /\ c <> apostrophe).
Proof.
  apply (questions_are_nonempty_and_unquoted a_planner bracket_example).
  vm_compute. now left.
Defined.

(* ================================================================== *)
(** * More on the agents *)
(* ================================================================== *)

Lemma steps_app log1 log2 : steps (log1 ++ log2) = steps log1 ++ steps log2.
Proof. apply filter_app. Qed.

(** X5.  The Planner calls the model once, without tools, and never
    raises: the plan is what the extraction finds in the response, and
    the empty plan when the call raises. *)
Theorem create_research_plan_calls_the_model_once :
  forall self topic log,
  exists outcome,
    run (PlannerAgent.create_research_plan self topic) log
    = (log ++ [Enter_create_research_plan topic;
               Generate (PlannerPrompt topic) NoTools outcome],
       Value match outcome with
             | Returns text => PlannerAgent._extract_questions self (strip text)
             | Fails _ => []
             end).
Proof.
  intros [m] topic log. eexists. rewrite create_research_plan_run.
  now rewrite <- app_assoc.
Qed.

(** X6.  The Synthesizer never raises and never returns the empty
    string.  With results it calls the model exactly once, without
    tools and with the compiled notes, and returns the text of the
    response, or the could-not-generate message when the text is empty
    or the call raises. *)
Theorem create_final_report_calls_the_model_once :
  forall self topic research_results log,
  exists report,
    snd (run (SynthesizerAgent.create_final_report self topic research_results)
             log)
    = Value report
    /\ report <> []
    /\ (research_results <> [] ->
        exists outcome,
          fst (run (SynthesizerAgent.create_final_report
                      self topic research_results) log)
          = log ++ [Enter_create_final_report topic research_results;
                    Generate
                      (SynthesisPrompt topic
                         (SynthesizerAgent._compile_research_notes
                            self research_results))
                      NoTools outcome]
          /\ report = match outcome with
                      | Returns (c :: text) => c :: text
                      | _ => SynthesizerAgent.no_report
                      end).
Proof.
  intros [m] topic research_results log. rewrite create_final_report_run.
  destruct research_results as [|pair pairs]; simpl.
  - exists SynthesizerAgent.no_data. repeat split; [discriminate|contradiction].
  - eexists. split; [reflexivity|]. split.
    + destruct (respond m _ _ _) as [[|c text]|msg]; discriminate.
    + intros _. eexists. split; [|reflexivity]. now rewrite <- app_assoc.
Qed.

Lemma create_final_report_calls_the_model_once_witness :
  exists report,
    snd (run (SynthesizerAgent.create_final_report
                {| SynthesizerAgent.model := unreachable |} (lit "topic")
                [(lit "Q1", lit "A1")]) [])
    = Value report
    /\ report = SynthesizerAgent.no_report.
Proof.
  destruct (create_final_report_calls_the_model_once
              {| SynthesizerAgent.model := unreachable |} (lit "topic")
              [(lit "Q1", lit "A1")] [])
    as (report & Hrun & _ & Hcall).
  exists report. split; [exact Hrun|].
  destruct Hcall as (outcome & Hlog & ->); [discriminate|].
  vm_compute in Hlog. now injection Hlog as <-.
Defined.

Lemma compile_from_app i research_results research_notes :
  SynthesizerAgent.compile_from i research_results research_notes
  = research_notes ++ SynthesizerAgent.compile_from i research_results [].
Proof.
  revert i research_notes.
  induction research_results as [|[question data] rest IH];
    intros i research_notes; cbn [SynthesizerAgent.compile_from].
  - now rewrite app_nil_r.
  - rewrite (IH _ (research_notes ++ _)), (IH _ ([] ++ _)).
    now rewrite app_nil_l, <- app_assoc.
Qed.

Lemma compile_from_sections i research_results :
  SynthesizerAgent.compile_from (N.of_nat i) research_results []
  = flat_map (fun entry =>
                SynthesizerAgent.section (fst entry) (fst (snd entry))
                                         (snd (snd entry)))
      (combine (List.map N.of_nat (seq i (List.length research_results)))
               research_results).
Proof.
  revert i. induction research_results as [|[question data] rest IH];
    intros i; [reflexivity|].
  cbn [SynthesizerAgent.compile_from combine List.map seq List.length flat_map
       fst snd].
  rewrite compile_from_app, app_nil_l. f_equal.
  rewrite <- Nat2N.inj_succ. apply IH.
Qed.

Lemma combine_app {A B} (l1 l2 : list A) (l1' l2' : list B) :
  List.length l1 = List.length l1' ->
  combine (l1 ++ l2) (l1' ++ l2') = combine l1 l1' ++ combine l2 l2'.
Proof.
  revert l1'. induction l1 as [|a l1 IH]; intros [|b l1']; simpl;
    try discriminate; [reflexivity|].
  intros [= H]. now rewrite IH.
Qed.

Lemma sections_shift n start (more_results : list (str * str)) :
  flat_map (fun entry =>
              SynthesizerAgent.section (fst entry) (fst (snd entry))
                                       (snd (snd entry)))
    (combine (List.map N.of_nat (seq (start + n) (List.length more_results)))
             more_results)
  = flat_map (fun entry =>
                SynthesizerAgent.section (N.of_nat n + fst entry)
                                         (fst (snd entry)) (snd (snd entry)))
      (combine (List.map N.of_nat (seq start (List.length more_results)))
               more_results).
Proof.
  revert start. induction more_results as [|[question data] rest IH];
    intros start; [reflexivity|].
  cbn [combine List.map seq List.length flat_map fst snd].
  f_equal.
  - f_equal. lia.
  - apply (IH (S start)).
Qed.

(** X7.  The research notes are one section for each result, in the
    order of the results and numbered from 1; so the notes of two
    sequences of results put end to end are the notes of the first
    followed by the sections of the second, numbered on from where the
    first stopped. *)
Theorem research_notes_are_numbered_sections :
  forall self research_results more_results,
    SynthesizerAgent._compile_research_notes self research_results
    = flat_map (fun entry =>
                  SynthesizerAgent.section (fst entry) (fst (snd entry))
                                           (snd (snd entry)))
        (enumerate_from_1 research_results)
    /\ SynthesizerAgent._compile_research_notes
         self (research_results ++ more_results)
       = SynthesizerAgent._compile_research_notes self research_results
           ++ flat_map (fun entry =>
                          SynthesizerAgent.section
                            (N.of_nat (List.length research_results) + fst entry)
                            (fst (snd entry)) (snd (snd entry)))
                (enumerate_from_1 more_results).
Proof.
  intros self research_results more_results.
  unfold SynthesizerAgent._compile_research_notes, enumerate_from_1.
  split; [apply (compile_from_sections 1)|].
  rewrite !(compile_from_sections 1).
  rewrite length_app, seq_app, map_app.
  rewrite combine_app by now rewrite length_map, length_seq.
  rewrite flat_map_app. f_equal. apply sections_shift.
Qed.

(** X8.  A researcher enters once and then only calls the model.  The
    [SimpleSearchAgent] makes one call, without the tool.  The
    [SearchAgent] and the [GoogleSearchAgent] make a first call with the
    search tool and at most one more, without it. *)
Theorem research_question_makes_one_or_two_calls :
  forall agent question log,
  exists calls,
    fst (run (research_question agent question) log)
    = log ++ Enter_research_question question :: calls
    /\ steps calls = []
    /\ match agent with
       | Search _ =>
           generate_calls calls
           = [(SearchPrompt question, GoogleSearchRetrieval)]
           \/ generate_calls calls
              = [(SearchPrompt question, GoogleSearchRetrieval);
                 (SearchFallbackPrompt question, NoTools)]
       | SimpleSearch _ =>
           generate_calls calls = [(SimplePrompt question, NoTools)]
       | GoogleSearch _ =>
           generate_calls calls
           = [(GoogleSearchPrompt question, GoogleSearchRetrieval)]
           \/ generate_calls calls
              = [(GoogleSearchPrompt question, GoogleSearchRetrieval);
                 (GoogleFallbackPrompt question, NoTools)]
       end.
Proof.
  intros [[m]|[m]|[m]] question log; simpl.
  - rewrite search_research_question_run.
    destruct (respond m _ (SearchPrompt _) _) as [text|msg];
      [|destruct (contains _ _)]; simpl; rewrite <- ?app_assoc;
      eexists; (split; [reflexivity|]); split; try reflexivity; auto.
  - rewrite simple_research_question_run. simpl. rewrite <- app_assoc.
    eexists. split; [reflexivity|]. split; reflexivity.
  - rewrite google_research_question_run.
    destruct (respond m _ (GoogleSearchPrompt _) _) as [[|c text]|msg];
      simpl; rewrite <- ?app_assoc;
      eexists; (split; [reflexivity|]); split; try reflexivity; auto.
Qed.

(** X9.  When the grounded call answers with an empty text, the
    [SearchAgent] gives up with the empty finding and no further call,
    while the [GoogleSearchAgent] goes on to its call without the tool
    and returns what that call gives. *)
Theorem empty_grounded_answer :
  forall m question log,
    (respond m (log ++ [Enter_research_question question])
             (SearchPrompt question) GoogleSearchRetrieval
     = Returns [] ->
     run (SearchAgent.research_question {| SearchAgent.model := m |} question)
         log
     = (log ++ [Enter_research_question question;
                Generate (SearchPrompt question) GoogleSearchRetrieval
                         (Returns [])],
        Value []))
    /\ (respond m (log ++ [Enter_research_question question])
                (GoogleSearchPrompt question) GoogleSearchRetrieval
        = Returns [] ->
        exists fallback,
          run (GoogleSearchAgent.research_question
                 {| GoogleSearchAgent.model := m |} question) log
          = (log ++ [Enter_research_question question;
                     Generate (GoogleSearchPrompt question)
                              GoogleSearchRetrieval (Returns []);
                     Generate (GoogleFallbackPrompt question) NoTools fallback],
             Value match fallback with
                   | Returns (c :: text) => c :: text
                   | _ => []
                   end)).
Proof.
  intros m question log. split; intros Hempty.
  - rewrite search_research_question_run, Hempty. now rewrite <- app_assoc.
  - rewrite google_research_question_run, Hempty. eexists.
    rewrite <- !app_assoc. reflexivity.
Qed.

(** Both agents on a model that finds nothing with the tool and answers
    without it. *)
Lemma empty_grounded_answer_witness :
  snd (run (SearchAgent.research_question
              {| SearchAgent.model := tool_finds_nothing |} (lit "Q1")) [])
  = Value []
  /\ exists fallback,
      run (GoogleSearchAgent.research_question
             {| GoogleSearchAgent.model := tool_finds_nothing |} (lit "Q1")) []
      = ([Enter_research_question (lit "Q1");
          Generate (GoogleSearchPrompt (lit "Q1")) GoogleSearchRetrieval
                   (Returns []);
          Generate (GoogleFallbackPrompt (lit "Q1")) NoTools fallback],
         Value match fallback with
               | Returns (c :: text) => c :: text
               | _ => []
               end).
Proof.
  split.
  - exact (f_equal snd
             (proj1 (empty_grounded_answer tool_finds_nothing (lit "Q1") [])
                    eq_refl)).
  - exact (proj2 (empty_grounded_answer tool_finds_nothing (lit "Q1") [])
                 eq_refl).
Defined.

(* ================================================================== *)
(** * More on the orchestrators *)
(* ================================================================== *)

Lemma research_question_steps agent question log :
  steps (fst (run (research_question agent question) log))
  = steps log ++ [Enter_research_question question].
Proof.
  destruct agent as [[m]|[m]|[m]]; simpl.
  - rewrite search_research_question_run.
    destruct (respond m _ (SearchPrompt _) _) as [text|msg];
      [|destruct (contains _ _)]; simpl; rewrite !steps_app; simpl;
      now rewrite ?app_nil_r.
  - rewrite simple_research_question_run. simpl. rewrite !steps_app. simpl.
    now rewrite app_nil_r.
  - rewrite google_research_question_run.
    destruct (respond m _ (GoogleSearchPrompt _) _) as [[|c text]|msg];
      simpl; rewrite !steps_app; simpl; now rewrite ?app_nil_r.
Qed.

Lemma researched_steps delay agent research_plan log findings log' :
  researched delay agent research_plan log = Some (findings, log') ->
  steps log' = steps log ++ research_steps delay research_plan.
Proof.
  revert log findings log'. induction research_plan as [|question rest IH];
    intros log findings log'; simpl.
  - intros [= _ <-]. now rewrite app_nil_r.
  - pose proof (research_question_steps agent question log) as Hq.
    destruct (run (research_question agent question) log) as [log1 [data|e]];
      [|discriminate].
    simpl in Hq.
    destruct (researched delay agent rest _) as [[fs log2]|] eqn:E;
      [|discriminate].
    intros [= _ <-]. rewrite (IH _ _ _ E), steps_app, Hq. simpl.
    now rewrite <- !app_assoc.
Qed.

(** X10.  The steps of a run of an initialized orchestrator: the
    Planner once; then each question of the plan once, in the order of
    the plan, each followed by the sleep; then the Synthesizer once, if
    there is a finding.  Nothing is entered twice and nothing is
    retried. *)
Theorem conduct_research_is_one_pass :
  forall delay self m p agent sy topic log0 log1 research_plan findings log2,
    Assistant.model self = Some m ->
    Assistant.planner self = Some p ->
    Assistant.searcher self = Some agent ->
    Assistant.synthesizer self = Some sy ->
    run (PlannerAgent.create_research_plan p topic) log0
    = (log1, Value research_plan) ->
    researched delay agent research_plan log1 = Some (findings, log2) ->
    steps (fst (run (Assistant.conduct_research delay self topic) log0))
    = steps log0
        ++ Enter_create_research_plan topic
        :: research_steps delay research_plan
        ++ match with_findings research_plan findings with
           | [] => []
           | (_ :: _) as research_results =>
               [Enter_create_final_report topic research_results]
           end.
Proof.
  intros delay self m p agent sy topic log0 log1 research_plan findings log2
         Hm Hp Hs Hsy Hplan Hres.
  rewrite (conduct_research_run delay self topic log0 Hm Hp Hs Hsy Hplan Hres).
  assert (H1 : steps log1 = steps log0 ++ [Enter_create_research_plan topic]).
  { destruct p as [mp]. rewrite create_research_plan_run in Hplan.
    injection Hplan as <- _. rewrite !steps_app. simpl. now rewrite app_nil_r. }
  pose proof (researched_steps _ _ _ _ Hres) as H2. rewrite H1 in H2.
  destruct research_plan as [|question rest].
  - simpl. rewrite H1. reflexivity.
  - destruct (with_findings (question :: rest) findings) as [|pair pairs].
    + simpl fst. rewrite H2, <- app_assoc, app_nil_r. reflexivity.
    + destruct sy as [msy]. rewrite create_final_report_run. simpl fst.
      rewrite !steps_app, H2. simpl. rewrite app_nil_r, <- !app_assoc.
      reflexivity.
Qed.

Lemma conduct_research_is_one_pass_witness :
  steps (fst (run (MultiAgentResearchAssistant.conduct_research
                     (initialized two_questions) (lit "topic")) []))
  = [Enter_create_research_plan (lit "topic");
     Enter_research_question (lit "Q1"); Sleep 1;
     Enter_research_question (lit "Q2"); Sleep 1;
     Enter_create_final_report (lit "topic") [(lit "Q1", lit "A1")]].
Proof.
  exact (@conduct_research_is_one_pass
           1 (initialized two_questions) _ _ _ _ (lit "topic") [] _
           [lit "Q1"; lit "Q2"] [lit "A1"; []]
           (match researched 1 (Search {| SearchAgent.model := two_questions |})
                    [lit "Q1"; lit "Q2"]
                    (fst (run (PlannerAgent.create_research_plan
                                 {| PlannerAgent.model := two_questions |}
                                 (lit "topic")) []))
            with Some (_, log2) => log2 | None => [] end)
           eq_refl eq_refl eq_refl eq_refl eq_refl eq_refl).
Defined.

(** X11.  A run of an orchestrator that has its model and its three
    agents never raises, and what it returns is never empty: it is the
    no-plan message, the no-information message, the could-not-generate
    message, or the text that the last call of the model returned. *)
Theorem conduct_research_returns_a_message_or_the_report :
  forall delay self m p agent sy topic log,
    Assistant.model self = Some m ->
    Assistant.planner self = Some p ->
    Assistant.searcher self = Some agent ->
    Assistant.synthesizer self = Some sy ->
    exists report,
      snd (run (Assistant.conduct_research delay self topic) log)
      = Value report
      /\ report <> []
      /\ (report = Assistant.no_plan
          \/ report = Assistant.no_information
          \/ report = SynthesizerAgent.no_report
          \/ last_outcome
               (fst (run (Assistant.conduct_research delay self topic) log))
             = Some (Returns report)).
Proof.
  intros delay self m p agent sy topic log Hm Hp Hs Hsy.
  destruct (run (PlannerAgent.create_research_plan p topic) log)
    as [log1 r] eqn:Hplan.
  assert (exists research_plan, r = Value research_plan) as [research_plan ->].
  { destruct p as [mp]. rewrite create_research_plan_run in Hplan.
    injection Hplan as _ <-. eauto. }
  destruct (researched_total delay agent research_plan log1)
    as (findings & log2 & Hres).
  rewrite (conduct_research_run delay self topic log Hm Hp Hs Hsy Hplan Hres).
  destruct research_plan as [|question rest].
  - exists Assistant.no_plan. repeat split; [discriminate | now left].
  - destruct (with_findings (question :: rest) findings) as [|pair pairs].
    + exists Assistant.no_information.
      repeat split; [discriminate | now right; left].
    + destruct sy as [msy]. rewrite create_final_report_run.
      destruct (respond msy _ _ _) as [[|c text]|msg]; simpl;
        eexists; (split; [reflexivity|]); (split; [discriminate|]).
      * now right; right; left.
      * right; right; right. apply last_outcome_generate.
      * now right; right; left.
Qed.

Lemma conduct_research_returns_a_message_or_the_report_witness :
  exists report,
    snd (run (MultiAgentResearchAssistant.conduct_research
                (initialized two_questions) (lit "topic")) [])
    = Value report
    /\ report <> []
    /\ (report = Assistant.no_plan
        \/ report = Assistant.no_information
        \/ report = SynthesizerAgent.no_report
        \/ last_outcome
             (fst (run (MultiAgentResearchAssistant.conduct_research
                          (initialized two_questions) (lit "topic")) []))
           = Some (Returns report)).
Proof.
  exact (@conduct_research_returns_a_message_or_the_report
           1 (initialized two_questions) _ _ _ _ (lit "topic") []
           eq_refl eq_refl eq_refl eq_refl).
Defined.

(* ================================================================== *)
(** * More on initialize *)
(* ================================================================== *)

(** The orchestrator that [initialize] builds around a model. *)
Lemma initialize_run make_searcher env self log :
  run (Assistant.initialize make_searcher env self) log
  = match Config.GOOGLE_API_KEY env with
    | Some (_ :: _) =>
        let outcome := respond (Config.gemini env) log TestPrompt NoTools in
        (log ++ [Generate TestPrompt NoTools outcome],
         Value match outcome with
               | Returns _ =>
                   ({| Assistant.model := Some (Config.gemini env);
                       Assistant.planner :=
                         Some {| PlannerAgent.model := Config.gemini env |};
                       Assistant.searcher :=
                         Some (make_searcher (Config.gemini env));
                       Assistant.synthesizer :=
                         Some {| SynthesizerAgent.model := Config.gemini env |} |},
                    true)
               | Fails _ =>
                   ({| Assistant.model := Some (Config.gemini env);
                       Assistant.planner := Assistant.planner self;
                       Assistant.searcher := Assistant.searcher self;
                       Assistant.synthesizer := Assistant.synthesizer self |},
                    false)
               end)
    | _ => (log, Value (self, false))
    end.
Proof.
  unfold Assistant.initialize, Config.validate_api_key, Config.configure_gemini.
  destruct (Config.GOOGLE_API_KEY env) as [[|c key]|]; try reflexivity.
  run_out. now destruct (respond _ _ _ _).
Qed.

(** X12.  [initialize] never raises.  It returns [True] exactly when
    the API key is set and not empty and the test call returns; then
    the model and the three agents are set, all on that one model.
    When the key is missing or empty it calls nothing and changes
    nothing. *)
Theorem initialize_succeeds_iff_key_and_test_call :
  forall make_searcher env self log,
  exists log' self' ok,
    run (Assistant.initialize make_searcher env self) log
    = (log', Value (self', ok))
    /\ (ok = true <->
        (exists c key, Config.GOOGLE_API_KEY env = Some (c :: key))
        /\ exists text,
            respond (Config.gemini env) log TestPrompt NoTools = Returns text)
    /\ (ok = true ->
        self' = {| Assistant.model := Some (Config.gemini env);
                   Assistant.planner :=
                     Some {| PlannerAgent.model := Config.gemini env |};
                   Assistant.searcher :=
                     Some (make_searcher (Config.gemini env));
                   Assistant.synthesizer :=
                     Some {| SynthesizerAgent.model := Config.gemini env |} |})
    /\ ((Config.GOOGLE_API_KEY env = None
         \/ Config.GOOGLE_API_KEY env = Some []) ->
        log' = log /\ self' = self /\ ok = false).
Proof.
  intros make_searcher env self log. rewrite initialize_run.
  destruct (Config.GOOGLE_API_KEY env) as [[|c key]|].
  - exists log, self, false. repeat split; try discriminate.
    intros [(c & key & Hkey) _]. discriminate.
  - simpl. destruct (respond _ _ _ _) as [text|msg].
    + do 3 eexists. split; [reflexivity|]. split; [|split].
      * split; [|reflexivity]. intros _. split; eauto.
      * reflexivity.
      * intros [Hkey|Hkey]; discriminate.
    + do 3 eexists. split; [reflexivity|]. split; [|split].
      * split; [discriminate|]. intros [_ [text' Hcall]]. discriminate.
      * discriminate.
      * intros [Hkey|Hkey]; discriminate.
  - exists log, self, false. repeat split; try discriminate.
    intros [(c & key & Hkey) _]. discriminate.
Qed.

(** X13.  When the key is set but the test call fails, [initialize]
    returns [False] and yet leaves the model set on an orchestrator
    without agents.  On that orchestrator [conduct_research] does not
    answer with the not-initialized message: it raises, before any
    agent is entered and without a call of the model. *)
Theorem conduct_research_after_failed_validation :
  forall make_searcher env c key message delay topic log,
    Config.GOOGLE_API_KEY env = Some (c :: key) ->
    respond (Config.gemini env) log TestPrompt NoTools = Fails message ->
    exists log' self',
      run (Assistant.initialize make_searcher env Assistant.__init__) log
      = (log', Value (self', false))
      /\ Assistant.model self' = Some (Config.gemini env)
      /\ exists e,
          run (Assistant.conduct_research delay self' topic) log'
          = (log', Raised e).
Proof.
  intros make_searcher env c key message delay topic log Hkey Hfail.
  rewrite initialize_run, Hkey. simpl. rewrite Hfail.
  do 2 eexists. split; [reflexivity|]. split; [reflexivity|].
  eexists. reflexivity.
Qed.

(** A key, and a model that cannot be reached. *)
Lemma conduct_research_after_failed_validation_witness :
  exists log' self',
    run (MultiAgentResearchAssistant.initialize
           {| Config.GOOGLE_API_KEY := Some (lit "key");
              Config.gemini := unreachable |}
           Assistant.__init__) []
    = (log', Value (self', false))
    /\ Assistant.model self' = Some unreachable
    /\ exists e,
        run (MultiAgentResearchAssistant.conduct_research self' (lit "topic"))
            log'
        = (log', Raised e).
Proof.
  exact (@conduct_research_after_failed_validation
           (fun m => Search {| SearchAgent.model := m |})
           {| Config.GOOGLE_API_KEY := Some (lit "key");
              Config.gemini := unreachable |}
           _ _ (lit "503 Service Unavailable") 1 (lit "topic") []
           eq_refl eq_refl).
Defined.

(* ================================================================== *)
(** * The name of a saved report *)
(* ================================================================== *)

Lemma rstrip_by_In (p : char -> bool) s c : In c (rstrip_by p s) -> In c s.
Proof.
  destruct (rstrip_by_prefix p s) as [dropped E]. intros H.
  rewrite E. apply in_or_app. now left.
Qed.

Lemma safe_topic_chars isalnum topic c :
  In c (SaveReport.safe_topic isalnum topic) ->
  c <> 32%N /\ (isalnum c = true \/ c = 45%N \/ c = 95%N).
Proof.
  unfold SaveReport.safe_topic, SaveReport.spaces_to_underscores. intros Hc.
  apply in_map_iff in Hc as (d & <- & Hd).
  apply rstrip_by_In, filter_In in Hd as [_ Hd].
  unfold SaveReport.kept in Hd. simpl in Hd.
  destruct (N.eqb_spec d 32) as [E|Hn]; [split; [discriminate|now right; right]|].
  split; [assumption|].
  apply orb_prop in Hd as [Hd|Hd]; [now left|]. simpl in Hd.
  apply orb_prop in Hd as [Hd|Hd]; [apply N.eqb_eq in Hd; now right; left|].
  apply orb_prop in Hd as [Hd|Hd]; [apply N.eqb_eq in Hd; now right; right|].
  discriminate.
Qed.

(** X14.  Whatever the topic, the part of the file name that comes from
    it holds no space and nothing but alphanumeric characters, dashes
    and underscores.  A space at the end of the topic leaves no trace
    in it. *)
Theorem safe_topic_is_safe :
  forall isalnum topic,
    (forall c,
        In c (SaveReport.safe_topic isalnum topic) ->
        c <> 32%N /\ (isalnum c = true \/ c = 45%N \/ c = 95%N))
    /\ SaveReport.safe_topic isalnum (topic ++ [32%N])
       = SaveReport.safe_topic isalnum topic.
Proof.
  intros isalnum topic. split; [intros c; apply safe_topic_chars|].
  unfold SaveReport.safe_topic. f_equal. rewrite filter_app. simpl.
  replace (SaveReport.kept isalnum 32%N) with true
    by (unfold SaveReport.kept; simpl; now rewrite orb_true_r).
  unfold rstrip_by. rewrite rev_app_distr. reflexivity.
Qed.

(** A topic with a path in front and a space at the end. *)
Lemma safe_topic_is_safe_witness :
  SaveReport.safe_topic SaveReport.ascii_isalnum (lit "../AI: what next? ")
  = lit "AI_what_next"
  /\ 65%N <> 32%N
  /\ (SaveReport.ascii_isalnum 65%N = true \/ 65%N = 45%N \/ 65%N = 95%N).
Proof.
  split; [reflexivity|].
  apply (proj1 (safe_topic_is_safe SaveReport.ascii_isalnum
                  (lit "../AI: what next? "))).
  vm_compute. now left.
Defined.

(* ================================================================== *)
(** * Whitespace around a response *)
(* ================================================================== *)

Lemma split_app sep s t : split sep (s ++ t) = glue (split sep s) (split sep t).
Proof.
  induction s as [|c s IH]; simpl.
  - pose proof (split_not_nil sep t). now destruct (split sep t).
  - destruct (N.eqb c sep).
    + rewrite IH. pose proof (split_not_nil sep s).
      now destruct (split sep s).
    + rewrite IH. pose proof (split_not_nil sep s) as Hs.
      pose proof (split_not_nil sep t) as Ht.
      destruct (split sep s) as [|q [|q' qs]]; [contradiction| |reflexivity].
      simpl. now destruct (split sep t).
Qed.

Lemma dropwhile_blank_prefix (p : char -> bool) b s :
  Forall (fun c => p c = true) b -> dropwhile p (b ++ s) = dropwhile p s.
Proof. induction 1 as [|c b Hc _ IH]; simpl; [reflexivity|]. now rewrite Hc. Qed.

Lemma dropwhile_all (p : char -> bool) b :
  Forall (fun c => p c = true) b -> dropwhile p b = [].
Proof.
  intros H. rewrite <- (app_nil_r b). now rewrite dropwhile_blank_prefix.
Qed.

Lemma dropwhile_app (p : char -> bool) s t :
  dropwhile p (s ++ t)
  = match dropwhile p s with
    | [] => dropwhile p t
    | c :: rest => (c :: rest) ++ t
    end.
Proof.
  induction s as [|c s IH]; simpl; [reflexivity|]. now destruct (p c).
Qed.

Lemma strip_blank_prefix b s : blank b -> strip (b ++ s) = strip s.
Proof.
  intros Hb. unfold strip, strip_by, lstrip_by.
  now rewrite dropwhile_blank_prefix.
Qed.

Lemma strip_blank_suffix s b : blank b -> strip (s ++ b) = strip s.
Proof.
  intros Hb. unfold strip, strip_by, lstrip_by. rewrite dropwhile_app.
  destruct (dropwhile isspace s) as [|c rest].
  - now rewrite (dropwhile_all _ Hb).
  - unfold rstrip_by. rewrite rev_app_distr.
    rewrite dropwhile_blank_prefix; [reflexivity|]. now apply Forall_rev.
Qed.

Lemma strip_blank b : blank b -> strip b = [].
Proof.
  intros Hb. unfold strip, strip_by, lstrip_by.
  now rewrite (dropwhile_all _ Hb).
Qed.

Lemma split_blank b piece : blank b -> In piece (split newline b) -> blank piece.
Proof.
  intros Hb Hp. apply Forall_forall. intros c Hc.
  destruct (split_piece _ _ _ Hp) as (_ & _ & Hin).
  exact (proj1 (Forall_forall _ _) Hb c (Hin c Hc)).
Qed.

(** The accepted lines among pieces, stripped. *)
Lemma accepted_blank pieces :
  Forall blank pieces ->
  filter Extract.looks_like_question (List.map strip pieces) = [].
Proof.
  induction 1 as [|piece pieces Hp _ IH]; simpl; [reflexivity|].
  now rewrite (strip_blank Hp), IH.
Qed.

Lemma accepted_glue_blank_suffix pieces more :
  pieces <> [] -> Forall blank more ->
  filter Extract.looks_like_question (List.map strip (glue pieces more))
  = filter Extract.looks_like_question (List.map strip pieces).
Proof.
  intros Hne Hmore. induction pieces as [|q [|q' qs] IH]; [contradiction| |].
  - simpl. destruct more as [|first rest]; [reflexivity|].
    inversion Hmore as [|? ? Hfirst Hrest]; subst. simpl.
    rewrite (strip_blank_suffix _ Hfirst), (accepted_blank Hrest). reflexivity.
  - change (glue (q :: q' :: qs) more) with (q :: glue (q' :: qs) more).
    cbn [List.map filter]. rewrite IH by discriminate. reflexivity.
Qed.

Lemma accepted_glue_blank_prefix pieces more :
  Forall blank pieces -> more <> [] ->
  filter Extract.looks_like_question (List.map strip (glue pieces more))
  = filter Extract.looks_like_question (List.map strip more).
Proof.
  intros Hpieces Hne. induction pieces as [|q [|q' qs] IH]; [reflexivity| |].
  - simpl. destruct more as [|first rest]; [contradiction|].
    inversion Hpieces as [|? ? Hq _]; subst. simpl.
    now rewrite (strip_blank_prefix _ Hq).
  - change (glue (q :: q' :: qs) more) with (q :: glue (q' :: qs) more).
    inversion Hpieces as [|? ? Hq Hrest]; subst.
    cbn [List.map filter]. rewrite (strip_blank Hq).
    change (Extract.looks_like_question []) with false. now apply IH.
Qed.

Lemma line_path_blank before s after :
  blank before -> blank after ->
  Extract.line_path (before ++ s ++ after) = Extract.line_path s.
Proof.
  intros Hb Ha. unfold Extract.line_path. rewrite !scan_lines_pipeline.
  do 4 f_equal. rewrite !split_app.
  rewrite accepted_glue_blank_prefix.
  - apply accepted_glue_blank_suffix; [apply split_not_nil|].
    apply Forall_forall. intros piece. now apply split_blank.
  - apply Forall_forall. intros piece. now apply split_blank.
  - pose proof (split_not_nil newline s) as Hs.
    pose proof (split_not_nil newline after) as Hafter.
    destruct (split newline s) as [|q [|q' qs]]; [contradiction| |discriminate].
    simpl. now destruct (split newline after).
Qed.

Lemma cut_blank_prefix c b s :
  ~ In c b ->
  Re.cut c (b ++ s)
  = match Re.cut c s with
    | Some (before, after) => Some (b ++ before, after)
    | None => None
    end.
Proof.
  induction b as [|d b IH]; intros Hc; simpl.
  - now destruct (Re.cut c s) as [[? ?]|].
  - destruct (N.eqb_spec d c) as [->|_]; [elim Hc; now left|].
    rewrite IH by (intros H; apply Hc; now right).
    now destruct (Re.cut c s) as [[? ?]|].
Qed.

Lemma cut_blank_suffix c s b :
  ~ In c b ->
  Re.cut c (s ++ b)
  = match Re.cut c s with
    | Some (before, after) => Some (before, after ++ b)
    | None => None
    end.
Proof.
  intros Hc. induction s as [|d s IH]; simpl.
  - pose proof (cut_blank_prefix c b [] Hc) as H.
    rewrite app_nil_r in H. exact H.
  - destruct (N.eqb d c); [reflexivity|]. rewrite IH.
    now destruct (Re.cut c s) as [[? ?]|].
Qed.

Lemma blank_not_In c b : isspace c = false -> blank b -> ~ In c b.
Proof.
  intros Hc Hb Hin. pose proof (proj1 (Forall_forall _ _) Hb c Hin) as H.
  simpl in H. congruence.
Qed.

Lemma search_bracket_list_blank before s after :
  blank before -> blank after ->
  Re.search_bracket_list (before ++ s ++ after) = Re.search_bracket_list s.
Proof.
  intros Hb Ha. unfold Re.search_bracket_list.
  rewrite (cut_blank_prefix 91%N before (s ++ after))
    by now apply blank_not_In.
  rewrite (cut_blank_suffix 91%N s after) by now apply blank_not_In.
  destruct (Re.cut 91%N s) as [[b a]|]; [|reflexivity].
  rewrite (cut_blank_suffix 93%N a after) by now apply blank_not_In.
  now destruct (Re.cut 93%N a) as [[? ?]|].
Qed.

Lemma takewhile_all (p : char -> bool) s :
  Forall (fun c => p c = true) (takewhile p s).
Proof.
  induction s as [|c s IH]; simpl; [constructor|].
  destruct (p c) eqn:E; constructor; assumption.
Qed.

(** A string is its strip between two blanks. *)
Lemma strip_between_blanks s :
  exists before after, blank before /\ blank after
                       /\ s = before ++ strip s ++ after.
Proof.
  exists (takewhile isspace s),
         (rev (takewhile isspace (rev (dropwhile isspace s)))).
  split; [apply takewhile_all|]. split; [apply Forall_rev, takewhile_all|].
  unfold strip, strip_by, lstrip_by, rstrip_by.
  rewrite <- rev_app_distr, <- takewhile_dropwhile, rev_involutive.
  apply takewhile_dropwhile.
Qed.

(** X15.  Whitespace before and after a response does not change the
    questions found in it; so the strip that [create_research_plan]
    applies to the response before the extraction changes nothing. *)
Theorem surrounding_whitespace_is_ignored :
  forall self response_text,
    (forall before after,
        Forall (fun c => isspace c = true) before ->
        Forall (fun c => isspace c = true) after ->
        PlannerAgent._extract_questions self (before ++ response_text ++ after)
        = PlannerAgent._extract_questions self response_text)
    /\ PlannerAgent._extract_questions self (strip response_text)
       = PlannerAgent._extract_questions self response_text.
Proof.
  intros self response_text.
  assert (H : forall s before after,
             blank before -> blank after ->
             PlannerAgent._extract_questions self (before ++ s ++ after)
             = PlannerAgent._extract_questions self s).
  { intros s before after Hb Ha. unfold PlannerAgent._extract_questions.
    rewrite (search_bracket_list_blank s Hb Ha).
    destruct (Re.search_bracket_list s); [reflexivity|].
    now apply line_path_blank. }
  split; [apply H|].
  destruct (strip_between_blanks response_text) as (before & after & Hb & Ha & E).
  rewrite E at 2. symmetry. now apply H.
Qed.

(** A response with blank lines and spaces around two numbered lines. *)
Lemma surrounding_whitespace_is_ignored_witness :
  PlannerAgent._extract_questions a_planner
    ([newline; 32%N] ++ (lit "1. Q1" ++ [newline] ++ lit "2. Q2")
       ++ [32%N; newline; newline])
  = PlannerAgent._extract_questions a_planner
      (lit "1. Q1" ++ [newline] ++ lit "2. Q2").
Proof.
  apply (proj1 (surrounding_whitespace_is_ignored
                  a_planner (lit "1. Q1" ++ [newline] ++ lit "2. Q2")));
    repeat constructor.
Defined.

(* ================================================================== *)
(** * The calls of the model in a run *)
(* ================================================================== *)

Lemma research_question_call_count agent question log :
  let calls log := List.length (generate_calls log) in
  calls log + 1 <= calls (fst (run (research_question agent question) log))
  /\ calls (fst (run (research_question agent question) log)) <= calls log + 2.
Proof.
  destruct agent as [[m]|[m]|[m]]; simpl.
  - rewrite search_research_question_run.
    destruct (respond m _ (SearchPrompt _) _) as [text|msg];
      [|destruct (contains _ _)]; simpl;
      rewrite !generate_calls_app, !length_app; simpl; lia.
  - rewrite simple_research_question_run. simpl.
    rewrite !generate_calls_app, !length_app. simpl. lia.
  - rewrite google_research_question_run.
    destruct (respond m _ (GoogleSearchPrompt _) _) as [[|c text]|msg];
      simpl; rewrite !generate_calls_app, !length_app; simpl; lia.
Qed.

Lemma researched_call_count delay agent research_plan log findings log' :
  researched delay agent research_plan log = Some (findings, log') ->
  List.length (generate_calls log) + List.length research_plan
  <= List.length (generate_calls log')
  /\ List.length (generate_calls log')
     <= List.length (generate_calls log) + 2 * List.length research_plan.
Proof.
  revert log findings log'. induction research_plan as [|question rest IH];
    intros log findings log'; simpl.
  - intros [= _ <-]. lia.
  - pose proof (research_question_call_count agent question log) as Hq.
    destruct (run (research_question agent question) log) as [log1 [data|e]];
      [|discriminate].
    simpl in Hq.
    destruct (researched delay agent rest _) as [[fs log2]|] eqn:E;
      [|discriminate].
    intros [= _ <-]. apply IH in E.
    rewrite generate_calls_app, length_app in E. simpl in E. lia.
Qed.

(** X16.  A run of an initialized orchestrator on a plan of n questions
    calls the model at least n + 1 times and at most 2 n + 2 times: once
    for the plan, once or twice for each question, at most once for the
    report. *)
Theorem conduct_research_call_budget :
  forall delay self m p agent sy topic log0 log1 research_plan findings log2,
    Assistant.model self = Some m ->
    Assistant.planner self = Some p ->
    Assistant.searcher self = Some agent ->
    Assistant.synthesizer self = Some sy ->
    run (PlannerAgent.create_research_plan p topic) log0
    = (log1, Value research_plan) ->
    researched delay agent research_plan log1 = Some (findings, log2) ->
    List.length (generate_calls log0) + List.length research_plan + 1
    <= List.length
         (generate_calls
            (fst (run (Assistant.conduct_research delay self topic) log0)))
    /\ List.length
         (generate_calls
            (fst (run (Assistant.conduct_research delay self topic) log0)))
       <= List.length (generate_calls log0) + 2 * List.length research_plan + 2.
Proof.
  intros delay self m p agent sy topic log0 log1 research_plan findings log2
         Hm Hp Hs Hsy Hplan Hres.
  rewrite (conduct_research_run delay self topic log0 Hm Hp Hs Hsy Hplan Hres).
  assert (H1 : List.length (generate_calls log1)
               = List.length (generate_calls log0) + 1).
  { destruct p as [mp]. rewrite create_research_plan_run in Hplan.
    injection Hplan as <- _. rewrite !generate_calls_app, !length_app.
    simpl. lia. }
  pose proof (researched_call_count _ _ _ _ Hres) as H2.
  destruct research_plan as [|question rest].
  - simpl. lia.
  - destruct (with_findings (question :: rest) findings) as [|pair pairs].
    + simpl fst. simpl List.length in *. lia.
    + destruct sy as [msy]. rewrite create_final_report_run. simpl fst.
      rewrite !generate_calls_app, !length_app. simpl List.length in *. lia.
Qed.

(** The run of the two questions Q1 and Q2: four calls. *)
Lemma conduct_research_call_budget_witness :
  2 + 1
  <= List.length
       (generate_calls
          (fst (run (MultiAgentResearchAssistant.conduct_research
                       (initialized two_questions) (lit "topic")) [])))
  /\ List.length
       (generate_calls
          (fst (run (MultiAgentResearchAssistant.conduct_research
                       (initialized two_questions) (lit "topic")) [])))
     <= 2 * 2 + 2.
Proof.
  exact (@conduct_research_call_budget
           1 (initialized two_questions) _ _ _ _ (lit "topic") [] _
           [lit "Q1"; lit "Q2"] [lit "A1"; []]
           (match researched 1 (Search {| SearchAgent.model := two_questions |})
                    [lit "Q1"; lit "Q2"]
                    (fst (run (PlannerAgent.create_research_plan
                                 {| PlannerAgent.model := two_questions |}
                                 (lit "topic")) []))
            with Some (_, log2) => log2 | None => [] end)
           eq_refl eq_refl eq_refl eq_refl eq_refl eq_refl).
Defined.

(* ================================================================== *)
(** * example_usage.py: the test of the agents *)
(* ================================================================== *)

(** One case split on what decides the run. *)
Ltac case_run :=
  match goal with
  | |- context [respond ?m ?l ?p ?t] =>
      destruct (respond m l p t) as [[|? ?]|?]
  | |- context [PlannerAgent._extract_questions ?self ?t] =>
      destruct (PlannerAgent._extract_questions self t)
  | |- context [contains ?a ?b] => destruct (contains a b)
  | |- context [startswith ?a ?b] => destruct (startswith a b) eqn:?
  end; simpl.

(** X17.  [test_individual_agents] never raises.  Without an API key it
    returns [False] and calls nothing.  When it returns [True], the last
    call of the model, the one of the Synthesizer, returned a text that
    is not empty and does not begin with [Error]. *)
Theorem test_individual_agents_verdict :
  forall env log,
  exists ok,
    snd (run (ExampleUsage.test_individual_agents env) log) = Value ok
    /\ (ok = true ->
        exists report,
          last_outcome (fst (run (ExampleUsage.test_individual_agents env) log))
          = Some (Returns report)
          /\ report <> []
          /\ startswith report (lit "Error") = false)
    /\ ((Config.GOOGLE_API_KEY env = None
         \/ Config.GOOGLE_API_KEY env = Some []) ->
        fst (run (ExampleUsage.test_individual_agents env) log) = log
        /\ ok = false).
Proof.
  intros env log.
  unfold ExampleUsage.test_individual_agents, Config.configure_gemini,
    PlannerAgent.create_research_plan, SearchAgent.research_question,
    SynthesizerAgent.create_final_report.
  destruct (Config.GOOGLE_API_KEY env) as [[|c key]|];
    [exists false; repeat split; discriminate | |
     exists false; repeat split; discriminate].
  Opaque startswith contains strip lit PlannerAgent._extract_questions
         SynthesizerAgent._compile_research_notes.
  assert (Hmessage :
            (truthy SynthesizerAgent.no_report
             && negb (startswith SynthesizerAgent.no_report (lit "Error")))%bool
            = false) by (vm_compute; reflexivity).
  run_out. repeat first [rewrite Hmessage; simpl | case_run];
    eexists; (split; [reflexivity|]);
    (split; [|intros [H|H]; discriminate]);
    intros Hok; try discriminate Hok;
    eexists; rewrite last_outcome_generate;
    (split; [reflexivity|]); (split; [discriminate|]); assumption.
  Transparent startswith contains strip lit PlannerAgent._extract_questions
              SynthesizerAgent._compile_research_notes.
Qed.

Lemma string_of_uint_digits d c :
  In c (lit (NilEmpty.string_of_uint d)) -> (48 <= c <= 57)%N.
Proof.
  induction d; simpl; try tauto;
    (intros [<-|H]; [lia | now apply IHd]).
Qed.

Lemma str_of_Z_chars now c :
  In c (SaveReport.str_of_Z now) -> c = 45%N \/ (48 <= c <= 57)%N.
Proof.
  unfold SaveReport.str_of_Z. destruct (Z.to_int now) as [d|d]; simpl.
  - intros H. right. exact (string_of_uint_digits d c H).
  - intros [<-|H]; [now left|]. right. exact (string_of_uint_digits d c H).
Qed.

(** X18.  As long as the slash and the backslash are not alphanumeric,
    the name of the file of a saved report holds neither, whatever the
    topic and the time: a topic cannot send the report to another
    directory. *)
Theorem report_filename_has_no_separator :
  forall isalnum topic now prefix,
    isalnum 47%N = false ->
    isalnum 92%N = false ->
    prefix = lit "research_report_" \/ prefix = lit "google_search_report_" ->
    ~ In 47%N (SaveReport.filename isalnum prefix topic now)
    /\ ~ In 92%N (SaveReport.filename isalnum prefix topic now).
Proof.
  intros isalnum topic now prefix Hslash Hback Hprefix.
  assert (H : forall c,
             isalnum c = false -> c <> 45%N -> c <> 95%N ->
             ~ (48 <= c <= 57)%N ->
             ~ In c prefix -> ~ In c (lit ".txt") ->
             ~ In c (SaveReport.filename isalnum prefix topic now)).
  { intros c Hc H45 H95 Hdigit Hp Hext Hin. unfold SaveReport.filename in Hin.
    apply in_app_or in Hin as [Hin|Hin]; [now apply Hp|].
    apply in_app_or in Hin as [Hin|Hin].
    { apply safe_topic_chars in Hin as [_ [Hin|[Hin|Hin]]]; congruence. }
    apply in_app_or in Hin as [Hin|Hin].
    { destruct Hin as [Hin|[]]. now apply H95. }
    apply in_app_or in Hin as [Hin|Hin]; [|now apply Hext].
    apply str_of_Z_chars in Hin as [Hin|Hin]; auto. }
  split; apply H; auto; try discriminate; try lia;
    try (destruct Hprefix as [->| ->]; vm_compute; intuition discriminate);
    vm_compute; intuition discriminate.
Qed.

(** A topic that tries to climb out of the directory. *)
Lemma report_filename_has_no_separator_witness :
  SaveReport.filename SaveReport.ascii_isalnum (lit "research_report_")
    (lit "../../etc/passwd") 1700000000%Z
  = lit "research_report_etcpasswd_1700000000.txt"
  /\ ~ In 47%N
       (SaveReport.filename SaveReport.ascii_isalnum (lit "research_report_")
          (lit "../../etc/passwd") 1700000000%Z).
Proof.
  split; [reflexivity|].
  apply (report_filename_has_no_separator
           SaveReport.ascii_isalnum (lit "../../etc/passwd") 1700000000%Z
           (prefix := lit "research_report_")); auto.
Defined.
